(** * SudoDev frontend: the run-orchestration controller

    A shallow embedding of [frontend/app/page.tsx] (component [Home]: the
    polling effect, [handleSubmit], [reset]) and of the two presentation
    components that decide what a finished run exposes
    ([components/Results.tsx], [components/StatusBar.tsx]).

    React state cells become the fields of a record, every asynchronous
    continuation of the source (an interval tick, a settled [fetch], a fired
    [setTimeout]) becomes an event, and [step] runs the corresponding piece of
    source code followed by the re-render that re-runs the polling effect when
    one of its dependencies changed. *)

From Stdlib Require Import ZArith String List Bool Lia.
From stdpp Require Import base decidable option list strings gmap.

Local Open Scope string_scope.
Local Open Scope Z_scope.
Local Open Scope list_scope.

(** ** JavaScript truthiness and [||] on the payload's field types *)

Module Js.

(** A string is falsy exactly when it is empty. *)
Definition truthy_string (s : string) : bool := negb (String.eqb s "").

(** A JSON number is falsy exactly when it is zero. *)
Definition truthy_number (n : Z) : bool := negb (n =? 0).

(** [x || d] where [x] is an optional field: an absent (or null) field
    reads as a falsy value, a present one is kept when it is truthy. *)
Definition or_else {A} (truthy : A -> bool) (x : option A) (d : A) : A :=
  match x with
  | Some v => if truthy v then v else d
  | None => d
  end.

(** [if (x)] on an optional field. *)
Definition test {A} (truthy : A -> bool) (x : option A) : bool :=
  match x with
  | Some v => truthy v
  | None => false
  end.

(** Arrays are objects: always truthy, also when empty. *)
Definition truthy_array {A} (_ : list A) : bool := true.

End Js.

(** ** Remote payloads

    The fields [Home] reads from the parsed body of [GET /api/status/{id}]
    and of [POST /api/run].  An optional field is [None] when the key is
    absent or holds null; both read as falsy in the source. *)

Record StatusPayload := {
  p_status : string;
  p_logs : option (list string);
  p_current_step : option Z;
  p_patch : option string;
  p_error : option string
}.

Record RunPayload := {
  r_run_id : option string
}.

(** How an awaited [fetch(...)] followed by [.json()] settles: control
    reaches the [catch] block (network failure, a body that is not JSON, a
    null body, on which the first property read throws), or the parsed body
    is an object whose fields are read. *)
Inductive Settled (A : Type) :=
| Rejects
| Body (data : A).
Arguments Rejects {A}.
Arguments Body {A} data.

(** ** The state cells of [Home] *)

(** The three literals ever passed to [setView]. *)
Inductive View := input | hud | result.

Global Instance View_eq_dec : EqDecision View.
Proof. solve_decision. Defined.

Record Store := {
  view : View;
  instanceId : string;
  context : string;
  runId : string;
  status : string;
  currentStep : Z;
  logs : list string;
  loading : bool;
  patch : string
}.

Definition setView (v : View) (s : Store) : Store :=
  {| view := v; instanceId := instanceId s; context := context s;
     runId := runId s; status := status s; currentStep := currentStep s;
     logs := logs s; loading := loading s; patch := patch s |}.

Definition setInstanceId (x : string) (s : Store) : Store :=
  {| view := view s; instanceId := x; context := context s;
     runId := runId s; status := status s; currentStep := currentStep s;
     logs := logs s; loading := loading s; patch := patch s |}.

Definition setContext (x : string) (s : Store) : Store :=
  {| view := view s; instanceId := instanceId s; context := x;
     runId := runId s; status := status s; currentStep := currentStep s;
     logs := logs s; loading := loading s; patch := patch s |}.

Definition setRunId (x : string) (s : Store) : Store :=
  {| view := view s; instanceId := instanceId s; context := context s;
     runId := x; status := status s; currentStep := currentStep s;
     logs := logs s; loading := loading s; patch := patch s |}.

Definition setStatus (x : string) (s : Store) : Store :=
  {| view := view s; instanceId := instanceId s; context := context s;
     runId := runId s; status := x; currentStep := currentStep s;
     logs := logs s; loading := loading s; patch := patch s |}.

Definition setCurrentStep (x : Z) (s : Store) : Store :=
  {| view := view s; instanceId := instanceId s; context := context s;
     runId := runId s; status := status s; currentStep := x;
     logs := logs s; loading := loading s; patch := patch s |}.

Definition setLogs (x : list string) (s : Store) : Store :=
  {| view := view s; instanceId := instanceId s; context := context s;
     runId := runId s; status := status s; currentStep := currentStep s;
     logs := x; loading := loading s; patch := patch s |}.

Definition setLoading (x : bool) (s : Store) : Store :=
  {| view := view s; instanceId := instanceId s; context := context s;
     runId := runId s; status := status s; currentStep := currentStep s;
     logs := logs s; loading := x; patch := patch s |}.

Definition setPatch (x : string) (s : Store) : Store :=
  {| view := view s; instanceId := instanceId s; context := context s;
     runId := runId s; status := status s; currentStep := currentStep s;
     logs := logs s; loading := loading s; patch := x |}.

(** The [useState] initialisers. *)
Definition initial_store : Store :=
  {| view := input; instanceId := ""; context := ""; runId := "";
     status := "idle"; currentStep := 0; logs := []; loading := false;
     patch := "" |}.

(** ** Timers, outstanding requests and the world around the store *)

(** Timer ids come from one counter shared by [setInterval] and
    [setTimeout] and are never reused, so clearing an interval id never
    removes a timeout. *)
Record Interval := {
  iv_id : nat;
  iv_period : Z;          (* milliseconds *)
  iv_runId : string       (* the [runId] captured by the callback *)
}.

(** The only [setTimeout] callback in the source is [setView("result")]. *)
Record Timeout := {
  to_id : nat;
  to_delay : Z            (* milliseconds *)
}.

(** A status request that has been issued and is suspended at [await]: it
    remembers the [pollInterval] of the closure that issued it and the run
    id in its URL. *)
Record Poll := {
  poll_interval : nat;
  poll_runId : string
}.

(** A start request suspended at [await fetch(".../api/run", ...)]. *)
Record StartCall := {
  req_instance_id : string;
  req_problem_statement : string
}.

Record World := {
  store : Store;
  poller : option Interval;     (* the interval of the current effect run, while live *)
  timeouts : list Timeout;      (* pending [setTimeout]s *)
  next_timer : nat;
  polls : list Poll;            (* status requests in flight *)
  starts : list StartCall       (* start requests in flight *)
}.

Definition with_store (f : Store -> Store) (w : World) : World :=
  {| store := f (store w); poller := poller w; timeouts := timeouts w;
     next_timer := next_timer w; polls := polls w; starts := starts w |}.

Definition with_polls (ps : list Poll) (w : World) : World :=
  {| store := store w; poller := poller w; timeouts := timeouts w;
     next_timer := next_timer w; polls := ps; starts := starts w |}.

Definition with_starts (cs : list StartCall) (w : World) : World :=
  {| store := store w; poller := poller w; timeouts := timeouts w;
     next_timer := next_timer w; polls := polls w; starts := cs |}.

Definition with_timeouts (ts : list Timeout) (w : World) : World :=
  {| store := store w; poller := poller w; timeouts := ts;
     next_timer := next_timer w; polls := polls w; starts := starts w |}.

(** [setInterval(callback, period)] from the effect body. *)
Definition setInterval (period : Z) (rid : string) (w : World) : World :=
  {| store := store w;
     poller := Some {| iv_id := next_timer w; iv_period := period; iv_runId := rid |};
     timeouts := timeouts w;
     next_timer := S (next_timer w); polls := polls w; starts := starts w |}.

(** [clearInterval(id)]: clears the interval with that id if it is live,
    and does nothing otherwise. *)
Definition clearInterval (id : nat) (w : World) : World :=
  {| store := store w;
     poller := match poller w with
               | Some iv => if Nat.eqb (iv_id iv) id then None else Some iv
               | None => None
               end;
     timeouts := timeouts w;
     next_timer := next_timer w; polls := polls w; starts := starts w |}.

(** [setTimeout(() => setView("result"), delay)]. *)
Definition setTimeout (delay : Z) (w : World) : World :=
  {| store := store w; poller := poller w;
     timeouts := timeouts w ++ [{| to_id := next_timer w; to_delay := delay |}];
     next_timer := S (next_timer w); polls := polls w; starts := starts w |}.

Definition poll_period : Z := 1500.
Definition settle_delay : Z := 1000.

Definition initial_world : World :=
  {| store := initial_store; poller := None; timeouts := [];
     next_timer := 0; polls := []; starts := [] |}.

(** ** The polling effect: [useEffect(..., [view, runId])] *)

(** The dependency array is compared entry by entry. *)
Definition deps_changed (old new : Store) : bool :=
  negb (bool_decide (view old = view new) && String.eqb (runId old) (runId new)).

(** The cleanup returned by the previous effect run: [clearInterval] of the
    interval that run created (nothing when it returned early or when the
    interval is already cleared). *)
Definition effect_cleanup (w : World) : World :=
  match poller w with
  | Some iv => clearInterval (iv_id iv) w
  | None => w
  end.

(** The effect body up to [setInterval]. *)
Definition effect_body (w : World) : World :=
  if negb (bool_decide (view (store w) = hud)) || negb (Js.truthy_string (runId (store w)))
  then w
  else setInterval poll_period (runId (store w)) w.

(** Re-render after a handler ran on a world whose store was [old]. *)
Definition rerender (old : Store) (w : World) : World :=
  if deps_changed old (store w) then effect_body (effect_cleanup w) else w.

(** ** Events and handlers *)

Inductive Event :=
| Type_instanceId (x : string)            (* [onChange] of the first form field *)
| Type_context (x : string)               (* [onChange] of the textarea *)
| Submit                                  (* the form's [onSubmit] *)
| StartSettles (k : nat) (r : Settled RunPayload)
| Tick                                    (* the interval fires *)
| PollSettles (k : nat) (r : Settled StatusPayload)
| TimeoutFires (k : nat)
| Reset.                                  (* [onReset] of the result view *)

(** [handleSubmit] up to its [await]: the synchronous state updates, then
    the request is issued with the current form contents. *)
Definition handleSubmit_begin (w : World) : World :=
  let w1 := with_store (fun s =>
              setStatus "pending" (setCurrentStep 0 (setLogs [] (setLoading true s)))) w in
  with_starts (starts w1 ++ [{| req_instance_id := instanceId (store w);
                                req_problem_statement := context (store w) |}]) w1.

(** The [catch] and [finally] blocks of [handleSubmit] (the [alert] and the
    console message touch no state). *)
Definition handleSubmit_catch (w : World) : World :=
  with_store (fun s => setLoading false (setStatus "failed" s)) w.

(** [handleSubmit] after its [await]s. *)
Definition handleSubmit_resume (r : Settled RunPayload) (w : World) : World :=
  match r with
  | Rejects => handleSubmit_catch w
  | Body data =>
      match r_run_id data with
      | Some rid =>
          if Js.truthy_string rid
          then with_store (fun s =>
                 setLoading false (setView hud (setStatus "processing" (setRunId rid s)))) w
          else handleSubmit_catch w      (* [throw new Error(...)] *)
      | None => handleSubmit_catch w
      end
  end.

(** The interval callback up to its first [await]: a request for the
    captured run id is issued, whatever is already in flight. *)
Definition poll_begin (w : World) : World :=
  match poller w with
  | Some iv =>
      with_polls (polls w ++ [{| poll_interval := iv_id iv; poll_runId := iv_runId iv |}]) w
  | None => w
  end.

(** The two immediate-failure branches of the callback ([if (data.error)]
    and [catch]) run the same three statements. *)
Definition poll_fail (pollInterval : nat) (w : World) : World :=
  with_store (fun s => setView result (setStatus "failed" s))
             (clearInterval pollInterval w).

(** The snapshot an observation leaves in the store. *)
Definition apply_observation (data : StatusPayload) (s : Store) : Store :=
  setPatch (Js.or_else Js.truthy_string (p_patch data) "")
    (setStatus (p_status data)
      (setCurrentStep (Js.or_else Js.truthy_number (p_current_step data) 0)
        (setLogs (Js.or_else Js.truthy_array (p_logs data) []) s))).

Definition is_terminal_status (st : string) : bool :=
  String.eqb st "completed" || String.eqb st "failed".

(** The interval callback after its [await]s, for the request issued by the
    closure whose [pollInterval] is given. *)
Definition poll_resume (pollInterval : nat) (r : Settled StatusPayload) (w : World) : World :=
  match r with
  | Rejects => poll_fail pollInterval w
  | Body data =>
      if Js.test Js.truthy_string (p_error data)
      then poll_fail pollInterval w
      else
        let w1 := with_store (apply_observation data) w in
        if is_terminal_status (p_status data)
        then setTimeout settle_delay (clearInterval pollInterval w1)
        else w1
  end.

(** [reset]. *)
Definition reset (w : World) : World :=
  with_store (fun s =>
    setPatch "" (setCurrentStep 0 (setLogs [] (setStatus "idle"
      (setRunId "" (setContext "" (setInstanceId "" (setView input s)))))))) w.

(** What the code run by an event does before React re-renders.  An event
    that names a request or timer that does not exist does nothing. *)
Definition handle (e : Event) (w : World) : World :=
  match e with
  | Type_instanceId x => with_store (setInstanceId x) w
  | Type_context x => with_store (setContext x) w
  | Submit => handleSubmit_begin w
  | StartSettles k r =>
      match starts w !! k with
      | Some _ => handleSubmit_resume r (with_starts (delete k (starts w)) w)
      | None => w
      end
  | Tick => poll_begin w
  | PollSettles k r =>
      match polls w !! k with
      | Some p => poll_resume (poll_interval p) r (with_polls (delete k (polls w)) w)
      | None => w
      end
  | TimeoutFires k =>
      match timeouts w !! k with
      | Some _ => with_store (setView result) (with_timeouts (delete k (timeouts w)) w)
      | None => w
      end
  | Reset => reset w
  end.

Definition step (w : World) (e : Event) : World :=
  rerender (store w) (handle e w).

Definition run (w : World) (es : list Event) : World := fold_left step es w.

(** Which events the rendered page can produce: the form exists only in
    the input view, its button is disabled while [loading] and its first
    field is [required]; the reset button exists only in the result view;
    timers and responses need a live timer or an outstanding request. *)
Definition enabled (w : World) (e : Event) : bool :=
  match e with
  | Type_instanceId _ | Type_context _ => bool_decide (view (store w) = input)
  | Submit => bool_decide (view (store w) = input)
              && negb (loading (store w))
              && Js.truthy_string (instanceId (store w))
  | StartSettles k _ => bool_decide (is_Some (starts w !! k))
  | Tick => bool_decide (is_Some (poller w))
  | PollSettles k _ => bool_decide (is_Some (polls w !! k))
  | TimeoutFires k => bool_decide (is_Some (timeouts w !! k))
  | Reset => bool_decide (view (store w) = result)
  end.

(** Every event of the trace is enabled when its turn comes. *)
Fixpoint feasible (w : World) (es : list Event) : bool :=
  match es with
  | [] => true
  | e :: es' => enabled w e && feasible (step w e) es'
  end.

(** ** The controller phase read off the world *)

Inductive Outcome := Resolved | Failed.

Inductive Phase :=
| Idle
| Submitting
| Active
| Settling
| Terminal (o : Outcome).

(** [components/Results.tsx]: [const isSuccess = status === "completed"]. *)
Definition isSuccess (st : string) : bool := String.eqb st "completed".

(** The input view is Idle, or Submitting while the start request is
    awaited; the [hud] view is Active while its interval is live and
    Settling once it has been cleared; the result view is Terminal, with the
    outcome the result component derives from [status]. *)
Definition phase (w : World) : Phase :=
  match view (store w) with
  | input => if loading (store w) then Submitting else Idle
  | hud => match poller w with Some _ => Active | None => Settling end
  | result => Terminal (if isSuccess (status (store w)) then Resolved else Failed)
  end.

(** ** [components/Results.tsx] *)

Module Results.

(** [{isSuccess && patch && (<div> ... <pre>{patch}</pre> ... </div>)}]:
    the text of the patch panel when it is rendered. *)
Definition patch_panel (st pt : string) : option string :=
  if isSuccess st && Js.truthy_string pt then Some pt else None.

(** [{isSuccess && patch && (<button onClick={downloadPatch}> ...)}]. *)
Definition download_button (st pt : string) : bool :=
  isSuccess st && Js.truthy_string pt.

(** [downloadPatch]: the contents of the blob offered as [fix.patch]. *)
Definition downloadPatch (pt : string) : option string :=
  if negb (Js.truthy_string pt) then None else Some pt.

End Results.

(** [{view === "result" && <Results status={status} patch={patch} .../>}]:
    the artifact the page shows. *)
Definition exposed_artifact (w : World) : option string :=
  match view (store w) with
  | result => Results.patch_panel (status (store w)) (patch (store w))
  | _ => None
  end.

(** The artifact the page offers for download. *)
Definition downloadable_artifact (w : World) : option string :=
  match view (store w) with
  | result =>
      if Results.download_button (status (store w)) (patch (store w))
      then Results.downloadPatch (patch (store w))
      else None
  | _ => None
  end.

(** ** [components/StatusBar.tsx] *)

Module StatusBar.

Definition STATUS_COLORS : gmap string string :=
  {[ "idle" := "bg-zinc-500";
     "processing" := "bg-amber-500";
     "completed" := "bg-emerald-500";
     "error" := "bg-rose-500" ]}.

(** The property names an object literal inherits from [Object.prototype];
    each of them holds a function or an object. *)
Definition object_prototype : list string :=
  [ "constructor"; "__proto__"; "hasOwnProperty"; "isPrototypeOf";
    "propertyIsEnumerable"; "toLocaleString"; "toString"; "valueOf";
    "__defineGetter__"; "__defineSetter__"; "__lookupGetter__";
    "__lookupSetter__" ].

(** What a property read on [STATUS_COLORS] yields. *)
Inductive Member :=
| Class (c : string)          (* an own property: a class name *)
| Builtin (name : string).    (* an inherited member *)

(** [STATUS_COLORS[key]]: own properties first, then the prototype;
    [None] is [undefined]. *)
Definition get (key : string) : option Member :=
  match STATUS_COLORS !! key with
  | Some c => Some (Class c)
  | None => if existsb (String.eqb key) object_prototype
            then Some (Builtin key) else None
  end.

Definition truthy_member (m : Member) : bool :=
  match m with
  | Class c => Js.truthy_string c
  | Builtin _ => true
  end.

(** [STATUS_COLORS.error]. *)
Definition error_colour : Member := default (Class "") (get "error").

(** [const color = STATUS_COLORS[status] || STATUS_COLORS.error]. *)
Definition color (st : string) : Member :=
  Js.or_else truthy_member (get st) error_colour.


(** A status the colour table has a property for. *)
Definition recognized (st : string) : bool := bool_decide (is_Some (get st)).

End StatusBar.

(** ** Predicates used in the statements *)

(** Invariant of the timers: a live interval belongs to the [hud] view, polls
    the stored run id every [poll_period] ms, and every pending timeout was
    set with [settle_delay]. *)
Definition timers_ok (w : World) : Prop :=
  (forall iv, poller w = Some iv ->
     iv_period iv = poll_period /\ iv_runId iv = runId (store w) /\
     view (store w) = hud) /\
  (view (store w) = hud -> Js.truthy_string (runId (store w)) = true) /\
  Forall (fun t => to_delay t = settle_delay) (timeouts w).

Inductive reachable : World -> Prop :=
| reachable_initial : reachable initial_world
| reachable_step w e : reachable w -> enabled w e = true -> reachable (step w e).

(** What the result view shows for an observation's patch when the run
    resolved: the patch text, unless it is absent or empty. *)
Definition shown_patch (d : StatusPayload) : option string :=
  match p_patch d with
  | Some pt => if Js.truthy_string pt then Some pt else None
  | None => None
  end.

(** An observation that is neither an error nor terminal, with one of the
    two in-progress statuses. *)
Definition in_progress (d : StatusPayload) : bool :=
  negb (Js.test Js.truthy_string (p_error d))
  && (String.eqb (p_status d) "pending" || String.eqb (p_status d) "processing").

(** The events of a run that is only being observed: ticks of the interval
    and in-progress observations. *)
Definition observing (e : Event) : bool :=
  match e with
  | Tick => true
  | PollSettles _ (Body d) => in_progress d
  | _ => false
  end.

(** The observation applied last along a trace, if any was ([acc] is the one
    applied last before the trace). *)
Fixpoint last_applied (w : World) (es : list Event) (acc : option StatusPayload)
    : option StatusPayload :=
  match es with
  | [] => acc
  | e :: es' =>
      last_applied (step w e) es'
        match e with
        | PollSettles k (Body d) =>
            match polls w !! k with Some _ => Some d | None => acc end
        | _ => acc
        end
  end.

(** The store shows the snapshot of [d]: its logs (or none) and its step
    index (or 0). *)
Definition shows (d : StatusPayload) (s : Store) : Prop :=
  logs s = Js.or_else Js.truthy_array (p_logs d) [] /\
  currentStep s = Js.or_else Js.truthy_number (p_current_step d) 0.

(** The observation an event applies, if it applies one. *)
Definition applies (w : World) (e : Event) : option StatusPayload :=
  match e with
  | PollSettles k (Body d) => match polls w !! k with Some _ => Some d | None => None end
  | _ => None
  end.

(** A start request fails when it rejects or when the body carries no
    truthy [run_id]. *)
Definition start_fails (r : Settled RunPayload) : bool :=
  match r with
  | Rejects => true
  | Body data => negb (Js.test Js.truthy_string (r_run_id data))
  end.

(** ** The pipeline list of [page.tsx] and [components/Sidebar.tsx] *)

Module Sidebar.

Inductive Icon := Sparkles | Search | Code2 | Wrench | TestTube | CheckCircle2 | Loader2.

Record Step := {
  step_id : string;
  step_label : string;
  step_icon : Icon
}.

(** What one entry of [steps.map((step, idx) => ...)] renders. *)
Record Row := {
  row_key : string;
  row_class : string;       (* the variable part of the container's class *)
  row_icon : Icon;
  row_text_class : string;
  row_text : string
}.

Definition active_class : string := "bg-blue-500/10 border border-blue-500/30".
Definition done_class : string := "bg-zinc-800/30".

Definition render_row (currentStep : Z) (idx : nat) (step : Step) : Row :=
  let isActive := Z.of_nat idx =? currentStep in
  let isDone := Z.of_nat idx <? currentStep in
  {| row_key := step_id step;
     row_class := if isActive then active_class else if isDone then done_class else "";
     row_icon := if isDone then CheckCircle2 else if isActive then Loader2 else step_icon step;
     row_text_class := if isActive then "text-blue-400"
                       else if isDone then "text-zinc-400" else "text-zinc-600";
     row_text := step_label step |}.

Definition render (steps : list Step) (currentStep : Z) : list Row :=
  imap (render_row currentStep) steps.

End Sidebar.

(** [const steps = [...]] of [page.tsx]. *)
Definition steps : list Sidebar.Step :=
  [ {| Sidebar.step_id := "init"; Sidebar.step_label := "Initialize";
       Sidebar.step_icon := Sidebar.Sparkles |};
    {| Sidebar.step_id := "analyze"; Sidebar.step_label := "Analyze";
       Sidebar.step_icon := Sidebar.Search |};
    {| Sidebar.step_id := "reproduce"; Sidebar.step_label := "Reproduce";
       Sidebar.step_icon := Sidebar.Code2 |};
    {| Sidebar.step_id := "locate"; Sidebar.step_label := "Locate Files";
       Sidebar.step_icon := Sidebar.Search |};
    {| Sidebar.step_id := "fix"; Sidebar.step_label := "Generate Fix";
       Sidebar.step_icon := Sidebar.Wrench |};
    {| Sidebar.step_id := "verify"; Sidebar.step_label := "Verify";
       Sidebar.step_icon := Sidebar.TestTube |} ].

(** [{view === "hud" && <AgentView steps={steps} currentStep={currentStep} .../>}]:
    the pipeline rows on the page. *)
Definition pipeline_rows (w : World) : list Sidebar.Row :=
  match view (store w) with
  | hud => Sidebar.render steps (currentStep (store w))
  | _ => []
  end.

(** ** [components/Terminal.tsx]

    Strings stand for their UTF-8 bytes; a substring test on the bytes of
    well-formed text agrees with the one on its characters. *)

Module Terminal.

(** [s.includes(sub)]. *)
Fixpoint includes (sub s : string) : bool :=
  String.prefix sub s ||
  match s with
  | EmptyString => false
  | String _ s' => includes sub s'
  end.

(** The first literal of [getLogColor] as the source file has it: the three
    characters U+00E2 U+0153 U+201C. *)
Definition check_mark : string :=
  String (Ascii.ascii_of_nat 195) (String (Ascii.ascii_of_nat 162)
  (String (Ascii.ascii_of_nat 197) (String (Ascii.ascii_of_nat 147)
  (String (Ascii.ascii_of_nat 226) (String (Ascii.ascii_of_nat 128)
  (String (Ascii.ascii_of_nat 156) EmptyString)))))).

Definition getLogColor (log : string) : string :=
  if includes check_mark log then "text-emerald-400"
  else if includes "[ERROR]" log then "text-rose-400"
  else if includes "[FIX]" log then "text-amber-400"
  else "text-zinc-400".

(** [sub] occurs in [s]. *)
Definition occurs (sub s : string) : Prop :=
  exists before after, s = before +:+ sub +:+ after.

End Terminal.

(** ** The header of the patch panel and the run label of the status bar *)

Module PatchPanel.

Definition newline : Ascii.ascii := Ascii.ascii_of_nat 10.

(** [patch.split('\n')]. *)
Fixpoint split_lines (s : string) : list string :=
  match s with
  | EmptyString => [EmptyString]
  | String c s' =>
      if Ascii.eqb c newline then EmptyString :: split_lines s'
      else match split_lines s' with
           | l :: ls => String c l :: ls
           | [] => [String c EmptyString]
           end
  end.

(** [{patch.split('\n').length} lines], rendered with the panel. *)
Definition line_count (st pt : string) : option nat :=
  if isSuccess st && Js.truthy_string pt then Some (List.length (split_lines pt)) else None.

(** The number of newline characters of a string. *)
Fixpoint newlines (s : string) : nat :=
  match s with
  | EmptyString => 0
  | String c s' => (if Ascii.eqb c newline then 1 else 0) + newlines s'
  end.

(** [lines.join('\n')]. *)
Fixpoint join_lines (ls : list string) : string :=
  match ls with
  | [] => EmptyString
  | [l] => l
  | l :: ls' => l +:+ String newline (join_lines ls')
  end.

End PatchPanel.

Module RunLabel.

(** [{runId && <span ...>Run: {runId.slice(0, 8)}</span>}]. *)
Definition render (rid : string) : option string :=
  if Js.truthy_string rid then Some ("Run: " +:+ String.substring 0 8 rid) else None.

(** Every character is a single code unit (ASCII), so that counting
    characters and counting code units agree. *)
Definition ascii_only (s : string) : Prop :=
  Forall (fun c => (Ascii.nat_of_ascii c < 128)%nat) (list_ascii_of_string s).

End RunLabel.

(** ** Invariants of the reachable worlds *)

(** Timer ids: every id handed out is below the counter, the pending
    timeouts have pairwise distinct ids, and none of them is the id of the
    live interval. *)
Definition ids_ok (w : World) : Prop :=
  (forall iv, poller w = Some iv ->
     (iv_id iv < next_timer w)%nat /\ iv_id iv ∉ to_id <$> timeouts w) /\
  Forall (fun t => (to_id t < next_timer w)%nat) (timeouts w) /\
  NoDup (to_id <$> timeouts w) /\
  Forall (fun p => (poll_interval p < next_timer w)%nat) (polls w).

(** The start request of a submission: none is awaited while [loading] is
    off, exactly one while it is on, and it carries a non-empty instance id. *)
Definition submission_ok (w : World) : Prop :=
  (loading (store w) = false /\ starts w = []) \/
  (loading (store w) = true /\
   exists c, starts w = [c] /\ req_instance_id c <> "").

(** The run id while the form or the hud is shown. *)
Definition handle_ok (w : World) : Prop :=
  (view (store w) = input -> runId (store w) = "") /\
  (view (store w) = hud -> runId (store w) <> "").

(** Status requests in flight: each was issued for a non-empty run id, and
    those issued by the live interval are for the stored run id. *)
Definition polls_ok (w : World) : Prop :=
  Forall (fun p =>
    poll_runId p <> "" /\
    (forall iv, poller w = Some iv -> poll_interval p = iv_id iv ->
                poll_runId p = runId (store w))) (polls w).

(** A status request fails when it rejects or when the body carries a
    truthy [error]. *)
Definition poll_fails (r : Settled StatusPayload) : bool :=
  match r with
  | Rejects => true
  | Body data => Js.test Js.truthy_string (p_error data)
  end.

(** While the hud is shown without a live interval, a timeout is pending. *)
Definition settling_ok (w : World) : Prop :=
  view (store w) = hud -> poller w = None -> timeouts w <> [].

(** ** Sample runs *)

Module Scenario.

Definition observation (st : string) (lg : option (list string)) (cs : option Z)
    (pt er : option string) : StatusPayload :=
  {| p_status := st; p_logs := lg; p_current_step := cs; p_patch := pt; p_error := er |}.

(** Fill in the form, submit, and the start request answers with a run id. *)
Definition launch (inst rid : string) : list Event :=
  [Type_instanceId inst; Submit; StartSettles 0 (Body {| r_run_id := Some rid |})].

(** A run that is being polled, with one status request in flight. *)
Definition polling : World :=
  run initial_world (launch "proj__proj-123" "abc123" ++ [Tick]).

Definition processing : StatusPayload :=
  observation "processing" (Some ["starting"; "analyzing"]) (Some 2) None None.

Definition completed : StatusPayload :=
  observation "completed" None None (Some "--- a/x.py") None.

Definition errored : StatusPayload :=
  observation "processing" None None None (Some "boom").

(** The start request rejects. *)
Definition failed_start : list Event :=
  [Type_instanceId "proj__proj-123"; Submit; StartSettles 0 Rejects].

(** Two ticks while the first request is slow; the second request reports
    an error, the result view comes up and the user resets. *)
Definition slow_then_reset : list Event :=
  launch "a" "r1" ++ [Tick; Tick; PollSettles 1 (Body errored); Reset].

Definition after_reset : World := run initial_world slow_then_reset.

(** What the slow request of run "r1" finally answers. *)
Definition late : StatusPayload :=
  observation "completed" (Some ["late"]) (Some 5) (Some "old patch") None.

(** A second run, started after the reset. *)
Definition second_run : World := run after_reset (launch "b" "r2").

(** In-progress observations and ticks of a polled run. *)
Definition observed : list Event :=
  [PollSettles 0 (Body processing); Tick; Tick;
   PollSettles 1 (Body (observation "pending" (Some ["queued"]) None None None))].

(** The result view after the second request reported an error. *)
Definition before_reset : World :=
  run initial_world (launch "a" "r1" ++ [Tick; Tick; PollSettles 1 (Body errored)]).

(** A submission whose start request is awaited. *)
Definition submitting : World :=
  run initial_world [Type_instanceId "proj__proj-123"; Submit].

(** A run that stored a patch and then received an error. *)
Definition failed_with_patch : World :=
  run polling
    [PollSettles 0 (Body (observation "processing" None (Some 4) (Some "partial") None));
     Tick; PollSettles 0 (Body errored)].

End Scenario.

(** Further sample worlds. *)

Module Cases.

(** The sample run after its completed observation, before the settle
    timeout fires. *)
Definition settling : World :=
  run Scenario.polling [PollSettles 0 (Body Scenario.completed)].

(** The slow first request of run "r1". *)
Definition stale_poll : Poll := {| poll_interval := 0; poll_runId := "r1" |}.

Definition long_run_id : string := "3f2a9c1e-77b0-4d".



(** An observation whose payload has an [error] field that is empty. *)
Definition empty_error : StatusPayload :=
  Scenario.observation "processing" (Some ["still running"]) (Some 3)
    (Some "partial") (Some "").

(** After a reset with the slow request of "r1" still in flight, a new
    submission is awaited when that request rejects. *)
Definition start_during_stale_failure : list Event :=
  Scenario.slow_then_reset
    ++ [Type_instanceId "b"; Submit; PollSettles 0 Rejects; StartSettles 0 Rejects].

Definition interrupted_submission : World :=
  run Scenario.after_reset [Type_instanceId "b"; Submit; PollSettles 0 Rejects].

End Cases.

(** * Properties *)

(** ** Proof support *)

Ltac conjs := repeat match goal with |- _ /\ _ => split end.

Lemma phase_Active_inv (w : World) :
  phase w = Active -> view (store w) = hud /\ exists iv, poller w = Some iv.
Proof.
  unfold phase. destruct (view (store w)); [destruct (loading _)| |]; try discriminate.
  destruct (poller w) as [iv|]; try discriminate. eauto.
Qed.

Lemma phase_Terminal_inv (w : World) (o : Outcome) :
  phase w = Terminal o ->
  view (store w) = result /\
  o = (if isSuccess (status (store w)) then Resolved else Failed).
Proof.
  unfold phase. destruct (view (store w)); [destruct (loading _)| |]; try discriminate.
  - destruct (poller w); discriminate.
  - intros [= <-]. auto.
Qed.

Lemma Forall_delete {A} (P : A -> Prop) (l : list A) (k : nat) :
  Forall P l -> Forall P (delete k l).
Proof.
  intros H. revert k. induction H; intros [|k]; simpl; auto.
Qed.


Lemma effect_cleanup_poller (w : World) : poller (effect_cleanup w) = None.
Proof.
  unfold effect_cleanup. destruct (poller w) as [iv|] eqn:Hiv; auto.
  unfold clearInterval; simpl. rewrite Hiv, Nat.eqb_refl. reflexivity.
Qed.

Lemma effect_cleanup_rest (w : World) :
  store (effect_cleanup w) = store w /\ timeouts (effect_cleanup w) = timeouts w /\
  polls (effect_cleanup w) = polls w /\ starts (effect_cleanup w) = starts w /\
  next_timer (effect_cleanup w) = next_timer w.
Proof. unfold effect_cleanup. destruct (poller w); auto. Qed.

Lemma effect_rerun_timers_ok (w : World) :
  Forall (fun t => to_delay t = settle_delay) (timeouts w) ->
  (view (store w) = hud -> Js.truthy_string (runId (store w)) = true) ->
  timers_ok (effect_body (effect_cleanup w)).
Proof.
  intros Ht Hh.
  destruct (effect_cleanup_rest w) as (Hs & Hts & _).
  pose proof (effect_cleanup_poller w) as Hp.
  unfold effect_body. rewrite Hs.
  destruct (bool_decide_reflect (view (store w) = hud)) as [Hv|Hv]; simpl.
  - rewrite (Hh Hv); simpl. split; [|split]; simpl; rewrite ?Hs, ?Hts; auto.
    intros ? [= <-]; simpl; auto.
  - split; [|split]; rewrite ?Hs, ?Hts, ?Hp; auto. discriminate.
Qed.

Lemma rerender_timers_ok (old : Store) (w : World) :
  Forall (fun t => to_delay t = settle_delay) (timeouts w) ->
  (view (store w) = hud -> Js.truthy_string (runId (store w)) = true) ->
  (forall iv, poller w = Some iv ->
     iv_period iv = poll_period /\ iv_runId iv = runId old /\ view old = hud) ->
  timers_ok (rerender old w).
Proof.
  intros Ht Hh Hp. unfold rerender, deps_changed.
  destruct (bool_decide_reflect (view old = view (store w))) as [Hv|Hv]; simpl.
  - destruct (String.eqb_spec (runId old) (runId (store w))) as [Hr|Hr]; simpl.
    + repeat split; auto; destruct (Hp _ H) as (? & ? & ?); congruence.
    + apply effect_rerun_timers_ok; auto.
  - apply effect_rerun_timers_ok; auto.
Qed.

Lemma clearInterval_poller (id : nat) (w : World) (iv : Interval) :
  poller (clearInterval id w) = Some iv -> poller w = Some iv.
Proof.
  unfold clearInterval; simpl. destruct (poller w) as [iv'|]; [|discriminate].
  destruct (iv_id iv' =? id)%nat; [discriminate|auto].
Qed.

Ltac split_handler :=
  repeat match goal with
  | |- context [match ?l !! ?k with _ => _ end] => destruct (l !! k) eqn:?
  | |- context [match ?r with Rejects => _ | Body _ => _ end] => destruct r as [|[]]
  | |- context [match ?o with Some _ => _ | None => _ end] => destruct o eqn:?
  | |- context [if ?b then _ else _] => destruct b eqn:?
  end; simpl in *.

Lemma timers_ok_step (w : World) (e : Event) : timers_ok w -> timers_ok (step w e).
Proof.
  intros (Hp & Hh & Ht). unfold step. apply rerender_timers_ok.
  - destruct e; simpl; unfold poll_resume, handleSubmit_resume, poll_begin;
      simpl; split_handler; auto using Forall_delete.
    apply Forall_app; split; auto.
  - destruct e; simpl; unfold poll_resume, handleSubmit_resume, poll_begin;
      simpl; split_handler; auto; discriminate.
  - intros iv. destruct e; simpl; unfold poll_resume, handleSubmit_resume, poll_begin;
      simpl; split_handler; auto.
    all: intros H; try apply clearInterval_poller in H; auto.
    all: try apply (clearInterval_poller _ (with_store _ _)) in H; auto.
    all: try (apply Hp; congruence).
Qed.

Lemma timers_ok_initial : timers_ok initial_world.
Proof. repeat split; simpl; auto; discriminate. Qed.

Lemma reachable_timers_ok (w : World) : reachable w -> timers_ok w.
Proof. induction 1; auto using timers_ok_initial, timers_ok_step. Qed.

Lemma feasible_reachable (w : World) (es : list Event) :
  reachable w -> feasible w es = true -> reachable (run w es).
Proof.
  revert w. induction es as [|e es IH]; simpl; intros w Hw H; auto.
  apply andb_prop in H as [He Hes]. apply IH; auto. constructor; auto.
Qed.

Lemma rerender_same (old : Store) (w : World) :
  view old = view (store w) -> runId old = runId (store w) -> rerender old w = w.
Proof.
  intros Hv Hr. unfold rerender, deps_changed.
  rewrite Hv, Hr, String.eqb_refl, bool_decide_eq_true_2; auto.
Qed.

(** An observation without a truthy [error] is applied as a whole snapshot;
    a terminal status additionally clears the issuing interval and sets the
    settle timer.  No guard looks at the view or the stored run id. *)
Lemma step_observation (w : World) (k : nat) (p : Poll) (d : StatusPayload) :
  polls w !! k = Some p ->
  Js.test Js.truthy_string (p_error d) = false ->
  step w (PollSettles k (Body d)) =
    let w1 := with_store (apply_observation d) (with_polls (delete k (polls w)) w) in
    if is_terminal_status (p_status d)
    then setTimeout settle_delay (clearInterval (poll_interval p) w1)
    else w1.
Proof.
  intros Hk He. unfold step, handle, poll_resume. rewrite Hk, He.
  destruct (is_terminal_status (p_status d)); apply rerender_same; reflexivity.
Qed.

(** Either immediate-failure branch, taken while the [hud] view is shown. *)
Lemma step_poll_fail (w : World) (k : nat) (p : Poll) (r : Settled StatusPayload) :
  polls w !! k = Some p ->
  view (store w) = hud ->
  match r with Rejects => True | Body d => Js.test Js.truthy_string (p_error d) = true end ->
  step w (PollSettles k r) =
    {| store := setView result (setStatus "failed" (store w));
       poller := None; timeouts := timeouts w; next_timer := next_timer w;
       polls := delete k (polls w); starts := starts w |}.
Proof.
  intros Hk Hv Hr. unfold step, handle. rewrite Hk.
  replace (poll_resume (poll_interval p) r (with_polls (delete k (polls w)) w))
    with (poll_fail (poll_interval p) (with_polls (delete k (polls w)) w))
    by (destruct r; simpl; [|rewrite Hr]; reflexivity).
  clear Hr.
  unfold rerender, deps_changed, poll_fail; simpl. rewrite Hv; simpl.
  unfold effect_body, effect_cleanup, clearInterval; simpl.
  destruct (poller w) as [iv|]; simpl; [destruct (iv_id iv =? poll_interval p)%nat; simpl|];
    rewrite ?Nat.eqb_refl; reflexivity.
Qed.

Lemma tick_without_poller (w : World) : poller w = None -> step w Tick = w.
Proof.
  intros H. unfold step, handle, poll_begin. rewrite H. apply rerender_same; reflexivity.
Qed.

Lemma tick_with_poller (w : World) (iv : Interval) :
  poller w = Some iv ->
  step w Tick =
    with_polls (polls w ++ [{| poll_interval := iv_id iv; poll_runId := iv_runId iv |}]) w.
Proof.
  intros H. unfold step, handle, poll_begin. rewrite H. apply rerender_same; reflexivity.
Qed.

(** The timer at index [k] fires while the [hud] view is shown. *)
Lemma step_timeout (w : World) (k : nat) (t : Timeout) :
  timeouts w !! k = Some t ->
  view (store w) = hud ->
  step w (TimeoutFires k) =
    {| store := setView result (store w);
       poller := None; timeouts := delete k (timeouts w);
       next_timer := next_timer w; polls := polls w; starts := starts w |}.
Proof.
  intros Hk Hv. unfold step, handle. rewrite Hk.
  unfold rerender, deps_changed; simpl. rewrite Hv; simpl.
  unfold effect_body, effect_cleanup, clearInterval; simpl.
  unfold with_store, with_timeouts; simpl.
  destruct (poller w) as [iv|]; simpl; rewrite ?Nat.eqb_refl; reflexivity.
Qed.


Lemma lookup_app_last {A} (l : list A) (x : A) : (l ++ [x]) !! List.length l = Some x.
Proof. induction l; simpl; auto. Qed.

(** What an applied observation leaves of the pending timeouts: they stay,
    possibly followed by a new one. *)
Lemma observation_keeps_timeouts (w : World) (k : nat) (p : Poll) (d : StatusPayload) :
  polls w !! k = Some p ->
  Js.test Js.truthy_string (p_error d) = false ->
  store (step w (PollSettles k (Body d))) = apply_observation d (store w) /\
  exists extra, timeouts (step w (PollSettles k (Body d))) = timeouts w ++ extra.
Proof.
  intros Hk He. rewrite (step_observation w k p d Hk He). cbv zeta.
  destruct (is_terminal_status (p_status d)); simpl.
  - split; [reflexivity|]. eexists. reflexivity.
  - split; [reflexivity|]. exists []. rewrite app_nil_r. reflexivity.
Qed.



(** C2 (as amended): in the Active phase, an observation whose [error]
    field is truthy (present and not empty) takes the controller in one step
    to Terminal(Failed): the interval is cleared (no tick fires any more),
    no settle timer is set, and the logs, step index and patch in the store
    stay as they were.  An [error] field that is absent or empty is no error
    indicator: the observation is applied to the store and the hud stays
    up. *)
Theorem C2_error_fails_immediately
    (w : World) (k : nat) (p : Poll) (d : StatusPayload) :
  phase w = Active ->
  polls w !! k = Some p ->
  let w' := step w (PollSettles k (Body d)) in
  (Js.test Js.truthy_string (p_error d) = true ->
   phase w' = Terminal Failed /\
   poller w' = None /\ step w' Tick = w' /\
   timeouts w' = timeouts w /\
   status (store w') = "failed" /\
   logs (store w') = logs (store w) /\
   currentStep (store w') = currentStep (store w) /\
   patch (store w') = patch (store w)) /\
  (p_error d = Some "" \/ p_error d = None ->
   store w' = apply_observation d (store w) /\
   view (store w') = hud /\
   phase w' <> Terminal Failed).
Proof.
  intros Hact Hk w'.
  destruct (phase_Active_inv w Hact) as [Hv _]. split.
  - intros He. subst w'. rewrite (step_poll_fail w k p (Body d) Hk Hv He).
    conjs; try reflexivity. apply tick_without_poller. reflexivity.
  - intros Hfalsy.
    assert (He : Js.test Js.truthy_string (p_error d) = false)
      by (destruct Hfalsy as [-> | ->]; reflexivity).
    destruct (observation_keeps_timeouts w k p d Hk He) as [Hs _].
    assert (Hv' : view (store w') = hud) by (subst w'; rewrite Hs; exact Hv).
    split; [exact Hs|]. split; [exact Hv'|].
    unfold phase. rewrite Hv'. destruct (poller w'); discriminate.
Qed.

(** C7: in the Active phase, a status request that rejects ends the run at
    once: the controller is in Terminal(Failed), the interval is cleared so
    no further request is issued, the failed request is dropped and not
    re-issued, and the resulting world is the one an observation with a
    truthy [error] field would have produced. *)
Theorem C7_transport_failure_is_fatal (w : World) (k : nat) (p : Poll) :
  phase w = Active ->
  polls w !! k = Some p ->
  let w' := step w (PollSettles k Rejects) in
  phase w' = Terminal Failed /\
  poller w' = None /\ step w' Tick = w' /\
  polls w' = delete k (polls w) /\
  timeouts w' = timeouts w /\
  forall d, Js.test Js.truthy_string (p_error d) = true ->
            w' = step w (PollSettles k (Body d)).
Proof.
  intros Hact Hk w'.
  destruct (phase_Active_inv w Hact) as [Hv _].
  subst w'. rewrite (step_poll_fail w k p Rejects Hk Hv I).
  conjs; try reflexivity.
  - apply tick_without_poller. reflexivity.
  - intros d He. rewrite (step_poll_fail w k p (Body d) Hk Hv He). reflexivity.
Qed.

Lemma store_after_observation (w : World) (k : nat) (p : Poll) (d : StatusPayload) :
  polls w !! k = Some p ->
  Js.test Js.truthy_string (p_error d) = false ->
  store (step w (PollSettles k (Body d))) = apply_observation d (store w).
Proof.
  intros Hk He. rewrite (step_observation w k p d Hk He).
  destruct (is_terminal_status (p_status d)); reflexivity.
Qed.

Lemma or_else_number (x : option Z) :
  Js.or_else Js.truthy_number x 0 = match x with Some n => n | None => 0 end.
Proof.
  destruct x as [n|]; auto. unfold Js.or_else, Js.truthy_number.
  destruct (Z.eqb_spec n 0); simpl; congruence.
Qed.

Lemma or_else_string (x : option string) :
  Js.or_else Js.truthy_string x "" = match x with Some s => s | None => "" end.
Proof.
  destruct x as [s|]; auto. unfold Js.or_else, Js.truthy_string.
  destruct (String.eqb_spec s ""); simpl; congruence.
Qed.

(** C9: an applied observation stores [current_step] when it is present and
    non-zero and 0 otherwise, and [patch] when it is present and non-empty
    and the empty string otherwise; an observation without [current_step]
    leaves the same world as one with [current_step] 0, and one without
    [patch] the same world as one with an empty [patch]. *)
Theorem C9_absent_fields_default
    (w : World) (k : nat) (p : Poll) (d : StatusPayload) :
  polls w !! k = Some p ->
  Js.test Js.truthy_string (p_error d) = false ->
  let observe cs pt :=
    step w (PollSettles k (Body {| p_status := p_status d; p_logs := p_logs d;
                                   p_current_step := cs; p_patch := pt;
                                   p_error := p_error d |})) in
  let s' := store (step w (PollSettles k (Body d))) in
  (forall n, p_current_step d = Some n -> n <> 0 -> currentStep s' = n) /\
  (p_current_step d = Some 0 \/ p_current_step d = None -> currentStep s' = 0) /\
  (forall pt, p_patch d = Some pt -> pt <> "" -> patch s' = pt) /\
  (p_patch d = Some "" \/ p_patch d = None -> patch s' = "") /\
  observe None (p_patch d) = observe (Some 0) (p_patch d) /\
  observe (p_current_step d) None = observe (p_current_step d) (Some "").
Proof.
  intros Hk He observe s'. subst observe s'.
  rewrite (store_after_observation w k p d Hk He).
  change (currentStep (apply_observation d (store w)))
    with (Js.or_else Js.truthy_number (p_current_step d) 0).
  change (patch (apply_observation d (store w)))
    with (Js.or_else Js.truthy_string (p_patch d) "").
  rewrite or_else_number, or_else_string.
  conjs.
  - intros n -> _. reflexivity.
  - intros [-> | ->]; reflexivity.
  - intros pt -> _. reflexivity.
  - intros [-> | ->]; reflexivity.
  - rewrite !step_observation with (p := p) by assumption. reflexivity.
  - rewrite !step_observation with (p := p) by assumption. reflexivity.
Qed.


Lemma in_progress_inv (d : StatusPayload) :
  in_progress d = true ->
  Js.test Js.truthy_string (p_error d) = false /\ is_terminal_status (p_status d) = false.
Proof.
  unfold in_progress, is_terminal_status. intros H.
  apply andb_prop in H as [He Hs]. apply negb_true_iff in He. split; auto.
  apply orb_prop in Hs as [Hs|Hs]; apply String.eqb_eq in Hs; rewrite Hs; reflexivity.
Qed.

Lemma last_applied_cons (w : World) (e : Event) (es : list Event) (acc : option StatusPayload) :
  last_applied w (e :: es) acc =
  last_applied (step w e) es (match applies w e with Some d => Some d | None => acc end).
Proof.
  simpl. f_equal. destruct e as [| | | |  |k [|d]| |]; simpl; auto.
  destruct (polls w !! k); auto.
Qed.

(** One observing event: the phase stays Active; an applied observation is
    shown by the store, and otherwise the store is unchanged. *)
Lemma observing_step (w : World) (e : Event) :
  phase w = Active -> observing e = true ->
  phase (step w e) = Active /\
  match applies w e with
  | Some d => shows d (store (step w e))
  | None => store (step w e) = store w
  end.
Proof.
  intros Hact Hobs.
  destruct (phase_Active_inv w Hact) as [Hv [iv Hiv]].
  destruct e as [| | | |  |k [|d]| |]; try discriminate; simpl in Hobs.
  - rewrite (tick_with_poller w iv Hiv). split; [exact Hact | reflexivity].
  - destruct (in_progress_inv d Hobs) as [He Hnt]. simpl.
    destruct (polls w !! k) as [p|] eqn:Hk.
    + rewrite (step_observation w k p d Hk He), Hnt. cbv zeta.
      split; [|split; reflexivity].
      unfold phase; simpl. rewrite Hv, Hiv. reflexivity.
    + assert (E : step w (PollSettles k (Body d)) = w).
      { unfold step, handle. rewrite Hk. apply rerender_same; reflexivity. }
      rewrite E. auto.
Qed.

Lemma observing_run (w : World) (es : list Event) (acc : option StatusPayload) :
  phase w = Active ->
  forallb observing es = true ->
  (forall d, acc = Some d -> shows d (store w)) ->
  phase (run w es) = Active /\
  (forall d, last_applied w es acc = Some d -> shows d (store (run w es))) /\
  (last_applied w es acc = None -> acc = None /\ store (run w es) = store w).
Proof.
  revert w acc. induction es as [|e es IH]; intros w acc Hact Hall Hacc.
  - simpl. auto.
  - rewrite last_applied_cons. cbn [run fold_left].
    simpl in Hall. apply andb_prop in Hall as [He Hes].
    destruct (observing_step w e Hact He) as [Hact' Hstep].
    destruct (applies w e) as [d0|] eqn:Hap.
    + destruct (IH (step w e) (Some d0) Hact' Hes) as (Hph & Hsome & Hnone).
      { intros d [= <-]. exact Hstep. }
      split; [exact Hph|]. split; [exact Hsome|].
      intros H. destruct (Hnone H) as [? _]. discriminate.
    + destruct (IH (step w e) acc Hact' Hes) as (Hph & Hsome & Hnone).
      { intros d Hd. unfold shows. rewrite Hstep. apply Hacc, Hd. }
      split; [exact Hph|]. split; [exact Hsome|].
      intros H. destruct (Hnone H) as [-> Hst].
      split; [reflexivity | etransitivity; [exact Hst | exact Hstep]].
Qed.

(** C3: along any sequence of interval ticks and applied observations with
    status "pending" or "processing", the controller stays Active, and the
    log lines and step index in the store are exactly those of the
    observation applied last ([logs] or the empty list, [current_step] or
    0), whatever the store held before; if none was applied the store is
    unchanged. *)
Theorem C3_in_progress_observations_replace (w : World) (es : list Event) :
  phase w = Active ->
  forallb observing es = true ->
  phase (run w es) = Active /\
  match last_applied w es None with
  | Some d =>
      logs (store (run w es)) = default [] (p_logs d) /\
      currentStep (store (run w es)) = default 0 (p_current_step d)
  | None => store (run w es) = store w
  end.
Proof.
  intros Hact Hall.
  destruct (observing_run w es None Hact Hall) as (Hph & Hsome & Hnone);
    [discriminate|].
  split; auto.
  destruct (last_applied w es None) as [d|].
  - destruct (Hsome d eq_refl) as [Hl Hc].
    rewrite Hl, Hc, or_else_number. split; reflexivity.
  - apply Hnone. reflexivity.
Qed.

Lemma isSuccess_spec (st : string) : isSuccess st = true <-> st = "completed".
Proof. apply String.eqb_eq. Qed.

Lemma truthy_string_spec (s : string) : Js.truthy_string s = true <-> s <> "".
Proof.
  unfold Js.truthy_string. destruct (String.eqb_spec s ""); simpl; split; congruence.
Qed.

Lemma patch_panel_spec (st pt a : string) :
  Results.patch_panel st pt = Some a <-> st = "completed" /\ pt <> "" /\ a = pt.
Proof.
  unfold Results.patch_panel. rewrite <- isSuccess_spec, <- truthy_string_spec.
  destruct (isSuccess st), (Js.truthy_string pt); simpl; split.
  all: try (intros [= <-]; auto); try (intros (? & ? & ?); congruence).
Qed.

Lemma download_spec (st pt a : string) :
  (if Results.download_button st pt then Results.downloadPatch pt else None) = Some a
  <-> st = "completed" /\ pt <> "" /\ a = pt.
Proof.
  unfold Results.download_button, Results.downloadPatch.
  rewrite <- isSuccess_spec, <- truthy_string_spec.
  destruct (isSuccess st), (Js.truthy_string pt); simpl; split.
  all: try (intros [= <-]; auto); try (intros (? & ? & ?); congruence).
Qed.

(** C8: in Terminal(Failed) the result view shows no patch and offers none
    for download, whatever patch the store holds; a patch is shown, and
    offered for download, exactly when the result view is up, the status is
    "completed" and the stored patch is non-empty, and it is then the stored
    patch. *)
Theorem C8_failed_run_exposes_no_artifact (w : World) :
  (phase w = Terminal Failed ->
   exposed_artifact w = None /\ downloadable_artifact w = None) /\
  (forall a, exposed_artifact w = Some a <->
     view (store w) = result /\ status (store w) = "completed" /\
     patch (store w) <> "" /\ a = patch (store w)) /\
  (forall a, downloadable_artifact w = Some a <->
     view (store w) = result /\ status (store w) = "completed" /\
     patch (store w) <> "" /\ a = patch (store w)).
Proof.
  conjs.
  - intros H. apply phase_Terminal_inv in H as [Hv Ho].
    unfold exposed_artifact, downloadable_artifact, Results.patch_panel,
      Results.download_button. rewrite Hv.
    destruct (isSuccess (status (store w))); [discriminate|]. auto.
  - intros a. unfold exposed_artifact.
    destruct (view (store w)); try rewrite patch_panel_spec; intuition congruence.
  - intros a. unfold downloadable_artifact.
    destruct (view (store w)); try rewrite download_spec; intuition congruence.
Qed.

Lemma effect_rerun_outside_hud (w : World) :
  view (store w) <> hud ->
  effect_body (effect_cleanup w) =
    {| store := store w; poller := None; timeouts := timeouts w;
       next_timer := next_timer w; polls := polls w; starts := starts w |}.
Proof.
  intros Hv. unfold effect_body.
  destruct (effect_cleanup_rest w) as (Hs & Ht & Hps & Hcs & Hn).
  pose proof (effect_cleanup_poller w) as Hp.
  rewrite Hs. rewrite bool_decide_eq_false_2 by exact Hv. simpl.
  destruct (effect_cleanup w); simpl in *; congruence.
Qed.

(** C4 (as amended): on any world that satisfies the timer invariant,
    [reset] puts every state cell except [loading] back to its initial value
    and shows the input view (phase Idle unless a start request is still
    awaited), and the interval is cleared, so no tick issues a request any
    more.  Requests in flight, pending timeouts and awaited start requests
    are left as they are, and a status response that arrives at any later
    point, also after a new run has started, is applied to the store like
    any other observation. *)
Theorem C4_reset_clears_store_and_interval (w : World) :
  timers_ok w ->
  let w' := step w Reset in
  store w' = setLoading (loading (store w)) initial_store /\
  phase w' = (if loading (store w) then Submitting else Idle) /\
  poller w' = None /\ step w' Tick = w' /\
  polls w' = polls w /\ timeouts w' = timeouts w /\ starts w' = starts w /\
  (forall es k p d,
     polls (run w' es) !! k = Some p ->
     Js.test Js.truthy_string (p_error d) = false ->
     store (step (run w' es) (PollSettles k (Body d))) =
       apply_observation d (store (run w' es))).
Proof.
  intros (Hp & _ & _) w'.
  assert (E : w' = {| store := setLoading (loading (store w)) initial_store;
                      poller := None; timeouts := timeouts w;
                      next_timer := next_timer w; polls := polls w;
                      starts := starts w |}).
  { subst w'. unfold step, handle, rerender.
    destruct (deps_changed (store w) (store (reset w))) eqn:Hd.
    - rewrite effect_rerun_outside_hud by discriminate. reflexivity.
    - unfold deps_changed in Hd. apply negb_false_iff, andb_prop in Hd as [Hv _].
      apply bool_decide_eq_true in Hv. simpl in Hv.
      unfold reset, with_store; simpl. f_equal.
      destruct (poller w) as [iv|] eqn:Hiv; auto.
      destruct (Hp iv eq_refl) as (_ & _ & Hhud). congruence. }
  conjs; try (rewrite E; reflexivity).
  intros es k p d Hk He. apply (store_after_observation _ k p d); auto.
Qed.

(** C5 (as amended): when an awaited start request fails, the status
    becomes "failed" and [loading] is cleared while every other state cell,
    the view and the stored run id among them, keeps its value; no interval
    is created, no status request is issued and no timer is set.  When the
    form is still shown, which it is unless a response or timeout of an
    earlier run has brought up the result view in the meantime, the page
    stays on the input view in phase Idle, shows no artifact and can be
    submitted again once an instance id is in the form; when the result view
    is up, it stays up and reports Terminal(Failed). *)
Theorem C5_failed_start_returns_to_input
    (w : World) (k : nat) (c : StartCall) (r : Settled RunPayload) :
  starts w !! k = Some c ->
  start_fails r = true ->
  let w' := step w (StartSettles k r) in
  store w' = setLoading false (setStatus "failed" (store w)) /\
  view (store w') = view (store w) /\
  runId (store w') = runId (store w) /\
  poller w' = poller w /\ polls w' = polls w /\ timeouts w' = timeouts w /\
  starts w' = delete k (starts w) /\
  (view (store w) = input ->
   phase w' = Idle /\ exposed_artifact w' = None /\
   enabled w' Reset = false /\
   enabled w' Submit = Js.truthy_string (instanceId (store w))) /\
  (view (store w) = result ->
   phase w' = Terminal Failed /\ exposed_artifact w' = None /\
   enabled w' Submit = false).
Proof.
  intros Hk Hf w'.
  assert (E : w' = with_store (fun s => setLoading false (setStatus "failed" s))
                     (with_starts (delete k (starts w)) w)).
  { subst w'. unfold step, handle. rewrite Hk.
    replace (handleSubmit_resume r (with_starts (delete k (starts w)) w))
      with (handleSubmit_catch (with_starts (delete k (starts w)) w)).
    - apply rerender_same; reflexivity.
    - destruct r as [|[[rid|]]]; simpl in *; auto.
      apply negb_true_iff in Hf. rewrite Hf. reflexivity. }
  rewrite E. conjs; try reflexivity.
  - intros Hv. unfold phase, exposed_artifact; simpl. rewrite Hv. simpl.
    conjs; reflexivity.
  - intros Hv. unfold phase, exposed_artifact, Results.patch_panel; simpl.
    rewrite Hv. simpl. conjs; reflexivity.
Qed.

Lemma ticks_with_poller (w : World) (iv : Interval) (n : nat) :
  poller w = Some iv ->
  run w (repeat Tick n) =
    with_polls (polls w ++ repeat {| poll_interval := iv_id iv;
                                     poll_runId := iv_runId iv |} n) w.
Proof.
  revert w. induction n as [|n IH]; intros w Hiv; simpl.
  - rewrite app_nil_r. destruct w; reflexivity.
  - rewrite (tick_with_poller w iv Hiv).
    change (fold_left step (repeat Tick n) ?x) with (run x (repeat Tick n)).
    rewrite IH by exact Hiv. unfold with_polls; simpl.
    rewrite <- app_assoc. reflexivity.
Qed.

(** C6 (as amended): while a run is polled, the interval has a period of
    1500 ms and every tick issues one more status request for the polled run
    whatever is already outstanding: after [n] ticks without a response
    there are [n] more requests in flight. *)
Theorem C6_every_tick_issues_a_request (w : World) (iv : Interval) (n : nat) :
  reachable w ->
  poller w = Some iv ->
  iv_period iv = 1500 /\
  iv_runId iv = runId (store w) /\
  polls (step w Tick) =
    polls w ++ [{| poll_interval := iv_id iv; poll_runId := runId (store w) |}] /\
  List.length (polls (run w (repeat Tick n))) = (List.length (polls w) + n)%nat.
Proof.
  intros Hr Hiv.
  destruct (reachable_timers_ok w Hr) as (Hp & _ & _).
  destruct (Hp iv Hiv) as (Hper & Hrid & _).
  conjs; auto.
  - rewrite (tick_with_poller w iv Hiv). simpl. rewrite Hrid. reflexivity.
  - rewrite (ticks_with_poller w iv n Hiv). simpl.
    rewrite length_app, repeat_length. reflexivity.
Qed.

(** ** The colour table *)

Lemma STATUS_COLORS_unlisted (st : string) :
  ~ In st ["idle"; "processing"; "completed"; "error"] ->
  StatusBar.STATUS_COLORS !! st = None.
Proof.
  intros H. unfold StatusBar.STATUS_COLORS.
  rewrite !lookup_insert_ne by (intros E; apply H; rewrite <- E; simpl; auto 10).
  apply lookup_singleton_ne. intros E; apply H; rewrite <- E; simpl; auto 10.
Qed.

(** A status that is neither a key of the table nor a member every object
    inherits is shown in the colour of the [error] entry. *)
Lemma color_of_unlisted_status (st : string) :
  ~ In st ["idle"; "processing"; "completed"; "error"] ->
  ~ In st StatusBar.object_prototype ->
  StatusBar.recognized st = false /\
  StatusBar.color st = StatusBar.Class "bg-rose-500".
Proof.
  intros Hown Hproto.
  assert (Hg : StatusBar.get st = None).
  { unfold StatusBar.get. rewrite (STATUS_COLORS_unlisted st Hown).
    destruct (existsb (String.eqb st) StatusBar.object_prototype) eqn:He; auto.
    apply existsb_exists in He as (x & Hx & Heq).
    apply String.eqb_eq in Heq. subst x. contradiction. }
  unfold StatusBar.recognized, StatusBar.color. rewrite Hg. split; [|reflexivity].
  apply bool_decide_eq_false. intros [m Hm]. discriminate.
Qed.

Example color_running : StatusBar.color "running" = StatusBar.Class "bg-rose-500".
Proof. vm_compute. reflexivity. Qed.

Example color_empty : StatusBar.color "" = StatusBar.Class "bg-rose-500".
Proof. vm_compute. reflexivity. Qed.

Example color_pending : StatusBar.color "pending" = StatusBar.Class "bg-rose-500".
Proof. vm_compute. reflexivity. Qed.

Example color_failed : StatusBar.color "failed" = StatusBar.Class "bg-rose-500".
Proof. vm_compute. reflexivity. Qed.

Example color_processing : StatusBar.color "processing" = StatusBar.Class "bg-amber-500".
Proof. vm_compute. reflexivity. Qed.

(** The property read follows the prototype chain: an inherited name is
    found, and what is found is truthy. *)
Example color_constructor :
  StatusBar.recognized "constructor" = true /\
  StatusBar.color "constructor" = StatusBar.Builtin "constructor".
Proof. vm_compute. split; reflexivity. Qed.

(** ** The scenario of the specification *)

Example scenario_active :
  phase (run initial_world (Scenario.launch "proj__proj-123" "abc123")) = Active.
Proof. reflexivity. Qed.

Example scenario_processing :
  let w := step Scenario.polling (PollSettles 0 (Body Scenario.processing)) in
  phase w = Active /\ currentStep (store w) = 2 /\
  logs (store w) = ["starting"; "analyzing"].
Proof. repeat split. Qed.

Example scenario_completed :
  let w := run Scenario.polling
             [PollSettles 0 (Body Scenario.processing); Tick;
              PollSettles 0 (Body Scenario.completed)] in
  phase w = Settling /\
  phase (step w (TimeoutFires 0)) = Terminal Resolved /\
  exposed_artifact (step w (TimeoutFires 0)) = Some "--- a/x.py".
Proof. repeat split. Qed.

(** ** Instances of the theorems and counterexamples to the claims that fail *)



(** C2 (as amended) at an observation that carries an [error]. *)
Lemma C2_witness :
  phase Scenario.polling = Active /\
  Js.test Js.truthy_string (p_error Scenario.errored) = true /\
  phase (step Scenario.polling (PollSettles 0 (Body Scenario.errored))) = Terminal Failed /\
  p_error Cases.empty_error = Some "" /\
  view (store (step Scenario.polling (PollSettles 0 (Body Cases.empty_error)))) = hud.
Proof.
  destruct (C2_error_fails_immediately Scenario.polling 0
              {| poll_interval := 0; poll_runId := "abc123" |}
              Scenario.errored eq_refl eq_refl) as [Herr _].
  destruct (C2_error_fails_immediately Scenario.polling 0
              {| poll_interval := 0; poll_runId := "abc123" |}
              Cases.empty_error eq_refl eq_refl) as [_ Hempty].
  split; [reflexivity|]. split; [reflexivity|].
  split; [exact (proj1 (Herr eq_refl))|]. split; [reflexivity|].
  exact (proj1 (proj2 (Hempty (or_introl eq_refl)))).
Defined.

(** C2 fails as stated: the payload of the observation contains an [error]
    field, the empty string; the run stays Active with its interval, and the
    logs, step index and patch of the observation are applied. *)
Lemma C2_counterexample :
  p_error Cases.empty_error = Some "" /\
  feasible initial_world
    (Scenario.launch "proj__proj-123" "abc123"
       ++ [Tick; PollSettles 0 (Body Cases.empty_error)]) = true /\
  phase Scenario.polling = Active /\
  phase (step Scenario.polling (PollSettles 0 (Body Cases.empty_error))) = Active /\
  phase (step Scenario.polling (PollSettles 0 (Body Cases.empty_error))) <> Terminal Failed /\
  poller (step Scenario.polling (PollSettles 0 (Body Cases.empty_error))) =
    poller Scenario.polling /\
  logs (store (step Scenario.polling (PollSettles 0 (Body Cases.empty_error)))) =
    ["still running"] /\
  currentStep (store (step Scenario.polling (PollSettles 0 (Body Cases.empty_error)))) = 3 /\
  patch (store (step Scenario.polling (PollSettles 0 (Body Cases.empty_error)))) = "partial".
Proof. vm_compute. repeat split. discriminate. Qed.

(** C3 along two observations with ticks in between. *)
Lemma C3_witness :
  phase Scenario.polling = Active /\
  forallb observing Scenario.observed = true /\
  phase (run Scenario.polling Scenario.observed) = Active /\
  logs (store (run Scenario.polling Scenario.observed)) = ["queued"] /\
  currentStep (store (run Scenario.polling Scenario.observed)) = 0.
Proof.
  split; [reflexivity|]. split; [reflexivity|].
  exact (C3_in_progress_observations_replace Scenario.polling Scenario.observed
           eq_refl eq_refl).
Defined.

(** C4 fails as stated: the first status request of run "r1" is still in
    flight when the user resets.  Its response is applied to the emptied
    store; and when it arrives after a second run "r2" has started, it
    overwrites that run's status, logs, step and patch, and the page
    ends up showing the patch of "r1" as the result of "r2". *)
Lemma C4_counterexample :
  feasible initial_world (Scenario.slow_then_reset ++ [PollSettles 0 (Body Scenario.late)]) = true /\
  phase Scenario.after_reset = Idle /\
  store Scenario.after_reset = initial_store /\
  polls Scenario.after_reset = [{| poll_interval := 0; poll_runId := "r1" |}] /\
  store (step Scenario.after_reset (PollSettles 0 (Body Scenario.late))) =
    {| view := input; instanceId := ""; context := ""; runId := "";
       status := "completed"; currentStep := 5; logs := ["late"];
       loading := false; patch := "old patch" |} /\
  feasible initial_world
    (Scenario.slow_then_reset ++ Scenario.launch "b" "r2"
       ++ [PollSettles 0 (Body Scenario.late); TimeoutFires 0]) = true /\
  phase Scenario.second_run = Active /\
  store Scenario.second_run =
    {| view := hud; instanceId := "b"; context := ""; runId := "r2";
       status := "processing"; currentStep := 0; logs := [];
       loading := false; patch := "" |} /\
  store (step Scenario.second_run (PollSettles 0 (Body Scenario.late))) =
    {| view := hud; instanceId := "b"; context := ""; runId := "r2";
       status := "completed"; currentStep := 5; logs := ["late"];
       loading := false; patch := "old patch" |} /\
  exposed_artifact
    (run Scenario.second_run [PollSettles 0 (Body Scenario.late); TimeoutFires 0]) =
    Some "old patch".
Proof. vm_compute. repeat split. Qed.

(** C4 (as amended) at a reset from the result view with a request in flight. *)
Lemma C4_witness :
  timers_ok Scenario.before_reset /\
  enabled Scenario.before_reset Reset = true /\
  store (step Scenario.before_reset Reset) = initial_store /\
  phase (step Scenario.before_reset Reset) = Idle /\
  step (step Scenario.before_reset Reset) Tick = step Scenario.before_reset Reset /\
  store (step (run (step Scenario.before_reset Reset) (Scenario.launch "b" "r2"))
              (PollSettles 0 (Body Scenario.late))) =
    apply_observation Scenario.late
      (store (run (step Scenario.before_reset Reset) (Scenario.launch "b" "r2"))).
Proof.
  assert (H : timers_ok Scenario.before_reset).
  { split; [|split]; vm_compute.
    - intros iv Hiv. discriminate Hiv.
    - intros Hv. discriminate Hv.
    - constructor. }
  destruct (C4_reset_clears_store_and_interval Scenario.before_reset H)
    as (Hs & Hp & _ & Ht & _ & _ & _ & Hlate).
  split; [exact H|]. split; [reflexivity|].
  split; [exact Hs|]. split; [exact Hp|]. split; [exact Ht|].
  exact (Hlate (Scenario.launch "b" "r2") 0%nat
           {| poll_interval := 0; poll_runId := "r1" |} Scenario.late
           eq_refl eq_refl).
Defined.

(** C5 fails as stated: after a start request that rejects the page is on
    the input view, in phase Idle and not in Terminal(Failed); the form can
    be submitted again and there is no reset button. *)
Lemma C5_counterexample :
  feasible initial_world Scenario.failed_start = true /\
  phase Scenario.submitting = Submitting /\
  step Scenario.submitting (StartSettles 0 Rejects) = run initial_world Scenario.failed_start /\
  view (store (run initial_world Scenario.failed_start)) = input /\
  phase (run initial_world Scenario.failed_start) = Idle /\
  phase (run initial_world Scenario.failed_start) <> Terminal Failed /\
  enabled (run initial_world Scenario.failed_start) Submit = true /\
  enabled (run initial_world Scenario.failed_start) Reset = false.
Proof. vm_compute. repeat split. discriminate. Qed.

(** C5 (as amended) at a start response without a run id, on the form and
    on the result view a stale rejected request has brought up meanwhile. *)
Lemma C5_witness :
  start_fails (Body {| r_run_id := None |}) = true /\
  phase Scenario.submitting = Submitting /\
  phase (step Scenario.submitting (StartSettles 0 (Body {| r_run_id := None |}))) = Idle /\
  runId (store (step Scenario.submitting (StartSettles 0 (Body {| r_run_id := None |})))) = "" /\
  status (store (step Scenario.submitting (StartSettles 0 (Body {| r_run_id := None |})))) = "failed" /\
  feasible initial_world Cases.start_during_stale_failure = true /\
  view (store Cases.interrupted_submission) = result /\
  phase (step Cases.interrupted_submission (StartSettles 0 Rejects)) = Terminal Failed.
Proof.
  destruct (C5_failed_start_returns_to_input Scenario.submitting 0
              {| req_instance_id := "proj__proj-123"; req_problem_statement := "" |}
              (Body {| r_run_id := None |}) eq_refl eq_refl)
    as (Hs & _ & Hr & _ & _ & _ & _ & Hinput & _).
  destruct (C5_failed_start_returns_to_input Cases.interrupted_submission 0
              {| req_instance_id := "b"; req_problem_statement := "" |}
              Rejects eq_refl eq_refl)
    as (_ & _ & _ & _ & _ & _ & _ & _ & Hresult).
  split; [reflexivity|]. split; [reflexivity|].
  split; [exact (proj1 (Hinput eq_refl))|].
  split; [exact Hr|]. split; [rewrite Hs; reflexivity|].
  split; [reflexivity|]. split; [reflexivity|].
  exact (proj1 (Hresult eq_refl)).
Defined.

(** C6 fails as stated: a tick that fires while a status request is
    outstanding is not skipped; afterwards two requests for the same run are
    in flight. *)
Lemma C6_counterexample :
  feasible initial_world (Scenario.launch "proj__proj-123" "abc123" ++ [Tick; Tick]) = true /\
  phase Scenario.polling = Active /\
  polls Scenario.polling = [{| poll_interval := 0; poll_runId := "abc123" |}] /\
  enabled Scenario.polling Tick = true /\
  polls (step Scenario.polling Tick) =
    [{| poll_interval := 0; poll_runId := "abc123" |};
     {| poll_interval := 0; poll_runId := "abc123" |}].
Proof. vm_compute. repeat split. Qed.

(** C6 (as amended) at three unanswered ticks of the sample run. *)
Lemma C6_witness :
  reachable Scenario.polling /\
  poller Scenario.polling = Some {| iv_id := 0; iv_period := 1500; iv_runId := "abc123" |} /\
  List.length (polls (run Scenario.polling (repeat Tick 3))) = 4%nat.
Proof.
  assert (H : reachable Scenario.polling).
  { apply feasible_reachable; [constructor | reflexivity]. }
  split; [exact H|]. split; [reflexivity|].
  exact (proj2 (proj2 (proj2
    (C6_every_tick_issues_a_request Scenario.polling
       {| iv_id := 0; iv_period := 1500; iv_runId := "abc123" |} 3 H eq_refl)))).
Defined.

(** C7 at the sample run. *)
Lemma C7_witness :
  phase Scenario.polling = Active /\
  phase (step Scenario.polling (PollSettles 0 Rejects)) = Terminal Failed /\
  step Scenario.polling (PollSettles 0 Rejects) =
    step Scenario.polling (PollSettles 0 (Body Scenario.errored)).
Proof.
  destruct (C7_transport_failure_is_fatal Scenario.polling 0
              {| poll_interval := 0; poll_runId := "abc123" |} eq_refl eq_refl)
    as (Hp & _ & _ & _ & _ & Hsame).
  split; [reflexivity|]. split; [exact Hp|].
  exact (Hsame Scenario.errored eq_refl).
Defined.

(** C8 at a failed run whose store still holds a patch. *)
Lemma C8_witness :
  phase Scenario.failed_with_patch = Terminal Failed /\
  patch (store Scenario.failed_with_patch) = "partial" /\
  exposed_artifact Scenario.failed_with_patch = None /\
  downloadable_artifact Scenario.failed_with_patch = None.
Proof.
  split; [reflexivity|]. split; [reflexivity|].
  exact (proj1 (C8_failed_run_exposes_no_artifact Scenario.failed_with_patch) eq_refl).
Defined.

(** C9 at observations without [current_step] and without [patch]. *)
Lemma C9_witness :
  Js.test Js.truthy_string (p_error Scenario.completed) = false /\
  currentStep (store (step Scenario.polling (PollSettles 0 (Body Scenario.completed)))) = 0 /\
  patch (store (step Scenario.polling (PollSettles 0 (Body Scenario.processing)))) = "".
Proof.
  destruct (C9_absent_fields_default Scenario.polling 0
              {| poll_interval := 0; poll_runId := "abc123" |}
              Scenario.completed eq_refl eq_refl) as (_ & Hstep & _).
  destruct (C9_absent_fields_default Scenario.polling 0
              {| poll_interval := 0; poll_runId := "abc123" |}
              Scenario.processing eq_refl eq_refl) as (_ & _ & _ & Hpatch & _).
  split; [reflexivity|]. split; [exact (Hstep (or_intror eq_refl))|].
  exact (Hpatch (or_intror eq_refl)).
Defined.


(** * Further properties of the code

    Invariants of the reachable worlds, the remaining transitions of the
    controller, and the presentation components. *)

(** ** Proof support for the invariants *)

Lemma rerender_cases (old : Store) (w : World) :
  (deps_changed old (store w) = false /\ rerender old w = w) \/
  (deps_changed old (store w) = true /\
   (view (store w) <> hud \/ runId (store w) = "") /\
   rerender old w =
     {| store := store w; poller := None; timeouts := timeouts w;
        next_timer := next_timer w; polls := polls w; starts := starts w |}) \/
  (deps_changed old (store w) = true /\
   view (store w) = hud /\ runId (store w) <> "" /\
   rerender old w =
     {| store := store w;
        poller := Some {| iv_id := next_timer w; iv_period := poll_period;
                          iv_runId := runId (store w) |};
        timeouts := timeouts w; next_timer := S (next_timer w);
        polls := polls w; starts := starts w |}).
Proof.
  unfold rerender. destruct (deps_changed old (store w)); [|left; auto].
  right.
  destruct (effect_cleanup_rest w) as (Hs & Ht & Hps & Hcs & Hn).
  pose proof (effect_cleanup_poller w) as Hp.
  unfold effect_body. rewrite Hs.
  destruct (bool_decide_reflect (view (store w) = hud)) as [Hv|Hv]; simpl.
  - destruct (Js.truthy_string (runId (store w))) eqn:Htr; simpl.
    + right. split; auto. split; auto. split; [apply truthy_string_spec; auto|].
      unfold setInterval. rewrite Hs, Ht, Hps, Hcs, Hn. reflexivity.
    + left. split; auto. split.
      * right. destruct (String.eqb_spec (runId (store w)) ""); auto.
        unfold Js.truthy_string in Htr.
        destruct (String.eqb_spec (runId (store w)) ""); simpl in *; congruence.
      * destruct (effect_cleanup w); simpl in *; congruence.
  - left. split; auto. split; auto.
    destruct (effect_cleanup w); simpl in *; congruence.
Qed.

Lemma rerender_store (old : Store) (w : World) : store (rerender old w) = store w.
Proof. destruct (rerender_cases old w) as [[_ ->]|[(_ & _ & ->)|(_ & _ & _ & ->)]]; reflexivity. Qed.

Lemma rerender_starts (old : Store) (w : World) : starts (rerender old w) = starts w.
Proof. destruct (rerender_cases old w) as [[_ ->]|[(_ & _ & ->)|(_ & _ & _ & ->)]]; reflexivity. Qed.

Lemma rerender_polls (old : Store) (w : World) : polls (rerender old w) = polls w.
Proof. destruct (rerender_cases old w) as [[_ ->]|[(_ & _ & ->)|(_ & _ & _ & ->)]]; reflexivity. Qed.

Lemma rerender_timeouts (old : Store) (w : World) : timeouts (rerender old w) = timeouts w.
Proof. destruct (rerender_cases old w) as [[_ ->]|[(_ & _ & ->)|(_ & _ & _ & ->)]]; reflexivity. Qed.

(** What a handler does to the store's view and run id, to [loading] and to
    the awaited start requests. *)
Lemma submission_ok_step (w : World) (e : Event) :
  enabled w e = true -> submission_ok w -> submission_ok (step w e).
Proof.
  intros Hen H. unfold submission_ok, step.
  rewrite rerender_store, rerender_starts.
  destruct e; simpl in *.
  - exact H.
  - exact H.
  - apply andb_prop in Hen as [Hen Hid]. apply andb_prop in Hen as [_ Hl].
    apply negb_true_iff in Hl. right. split; auto.
    destruct H as [[_ Hs]|[Hl' _]]; [|congruence].
    rewrite Hs. simpl. eexists; split; [reflexivity|]. simpl.
    apply truthy_string_spec. exact Hid.
  - destruct H as [[Hl Hs]|[Hl (c & Hs & Hc)]].
    + rewrite Hs. simpl. left. rewrite Hs. auto.
    + rewrite Hs. destruct k as [|k]; simpl.
      * left. unfold handleSubmit_resume, handleSubmit_catch.
        destruct r as [|[[rid|]]]; simpl; auto.
        destruct (Js.truthy_string rid); simpl; auto.
      * right. rewrite Hs. eauto.
  - unfold poll_begin. destruct (poller w); exact H.
  - destruct (polls w !! k); [|exact H]. unfold poll_resume.
    destruct r as [|d]; simpl; [exact H|].
    destruct (Js.test _ _); simpl; [exact H|].
    destruct (is_terminal_status _); exact H.
  - destruct (timeouts w !! k); exact H.
  - exact H.
Qed.

Lemma handle_ok_step (w : World) (e : Event) : handle_ok w -> handle_ok (step w e).
Proof.
  intros [Hin Hhud]. unfold handle_ok, step. rewrite rerender_store.
  destruct e; simpl.
  - auto.
  - auto.
  - auto.
  - destruct (starts w !! k); auto. unfold handleSubmit_resume, handleSubmit_catch.
    destruct r as [|[[rid|]]]; simpl; auto.
    destruct (Js.truthy_string rid) eqn:Hr; simpl; auto.
    split; [discriminate|]. intros _. apply truthy_string_spec. exact Hr.
  - unfold poll_begin. destruct (poller w); simpl; auto.
  - destruct (polls w !! k); auto. unfold poll_resume, poll_fail.
    destruct r as [|d]; simpl; [split; discriminate|].
    destruct (Js.test _ _); simpl; [split; discriminate|].
    destruct (is_terminal_status _); simpl; auto.
  - destruct (timeouts w !! k); simpl; auto. split; discriminate.
  - split; [reflexivity | discriminate].
Qed.

(** A handler never creates an interval. *)
Lemma handle_poller (e : Event) (w : World) (iv : Interval) :
  poller (handle e w) = Some iv -> poller w = Some iv.
Proof.
  destruct e; simpl.
  - auto.
  - auto.
  - auto.
  - destruct (starts w !! k); auto. unfold handleSubmit_resume, handleSubmit_catch.
    destruct r as [|[[rid|]]]; simpl; auto. destruct (Js.truthy_string rid); auto.
  - unfold poll_begin. destruct (poller w) eqn:E; simpl; congruence.
  - destruct (polls w !! k); auto. unfold poll_resume, poll_fail.
    destruct r as [|d]; simpl.
    + apply clearInterval_poller.
    + destruct (Js.test _ _); simpl; [apply clearInterval_poller|].
      destruct (is_terminal_status _); simpl; auto.
      intros H. apply (clearInterval_poller (poll_interval p)
                         (with_store (apply_observation d) (with_polls (delete k (polls w)) w))).
      exact H.
  - destruct (timeouts w !! k); auto.
  - auto.
Qed.

Lemma ids_ok_keep (w w' : World) :
  (forall iv, poller w' = Some iv -> poller w = Some iv) ->
  timeouts w' = timeouts w -> next_timer w' = next_timer w ->
  Forall (fun p => (poll_interval p < next_timer w)%nat) (polls w') ->
  ids_ok w -> ids_ok w'.
Proof.
  intros H1 H2 H3 H4 (Hp & Ht & Hnd & Hq). unfold ids_ok. rewrite H2, H3.
  split; [|split; [|split]]; auto.
Qed.

Lemma ids_ok_handle (e : Event) (w : World) : ids_ok w -> ids_ok (handle e w).
Proof.
  intros Hok. pose proof Hok as (Hp & Ht & Hnd & Hq).
  assert (Hdel : forall k, Forall (fun p => (poll_interval p < next_timer w)%nat)
                             (delete k (polls w)))
    by (intros k; apply Forall_delete; exact Hq).
  destruct e; simpl.
  - apply (ids_ok_keep w); auto.
  - apply (ids_ok_keep w); auto.
  - apply (ids_ok_keep w); auto.
  - destruct (starts w !! k); [|exact Hok].
    unfold handleSubmit_resume, handleSubmit_catch.
    destruct r as [|[[rid|]]]; simpl; try (apply (ids_ok_keep w); auto; fail).
    destruct (Js.truthy_string rid); apply (ids_ok_keep w); auto.
  - unfold poll_begin. destruct (poller w) as [iv|] eqn:Hiv; [|exact Hok].
    apply (ids_ok_keep w); auto. simpl.
    apply Forall_app. split; [exact Hq|]. constructor; [|constructor]. simpl.
    apply (Hp iv eq_refl).
  - destruct (polls w !! k) as [p|]; [|exact Hok].
    assert (Hfail : ids_ok (poll_fail (poll_interval p) (with_polls (delete k (polls w)) w))).
    { apply (ids_ok_keep w); [|reflexivity|reflexivity|apply Hdel|exact Hok].
      intros iv Hiv.
      apply (clearInterval_poller (poll_interval p) (with_polls (delete k (polls w)) w)).
      exact Hiv. }
    unfold poll_resume. destruct r as [|d]; [exact Hfail|].
    destruct (Js.test _ _); [exact Hfail|]. cbv zeta.
    destruct (is_terminal_status _);
      [|apply (ids_ok_keep w); [auto|reflexivity|reflexivity|apply Hdel|exact Hok]].
    assert (Hcl : forall iv,
              poller (setTimeout settle_delay
                        (clearInterval (poll_interval p)
                           (with_store (apply_observation d)
                              (with_polls (delete k (polls w)) w)))) = Some iv ->
              poller w = Some iv).
    { intros iv Hiv.
      apply (clearInterval_poller (poll_interval p)
               (with_store (apply_observation d) (with_polls (delete k (polls w)) w))).
      exact Hiv. }
    unfold ids_ok. split; [|split; [|split]].
    + intros iv Hiv. destruct (Hp iv (Hcl iv Hiv)) as [Hlt Hnot]. simpl. split; [lia|].
      rewrite fmap_app, elem_of_app. intros [Hin|Hin]; [contradiction|].
      simpl in Hin. apply list_elem_of_singleton in Hin. lia.
    + simpl. apply Forall_app. split.
      * eapply Forall_impl; [exact Ht|]. simpl. intros; lia.
      * constructor; [simpl; lia | constructor].
    + simpl. rewrite fmap_app. apply NoDup_app.
      split; [exact Hnd|]. split; [|apply NoDup_singleton].
      intros x Hx Hx'. simpl in Hx'. apply list_elem_of_singleton in Hx'. subst x.
      apply list_elem_of_fmap in Hx as (t & Heq & Hin).
      rewrite Forall_forall in Ht. specialize (Ht t Hin). lia.
    + simpl. eapply Forall_impl; [apply Hdel|]. simpl. intros; lia.
  - destruct (timeouts w !! k) as [t|]; [|exact Hok].
    unfold ids_ok; simpl. rewrite list_fmap_delete. split; [|split; [|split]].
    + intros iv Hiv. destruct (Hp iv Hiv) as [Hlt Hnot]. split; [exact Hlt|].
      intros Hin. apply list_elem_of_delete_inv in Hin. contradiction.
    + apply Forall_delete. exact Ht.
    + eapply sublist_NoDup; [exact Hnd | apply sublist_delete].
    + exact Hq.
  - apply (ids_ok_keep w); auto.
Qed.

Lemma ids_ok_rerender (old : Store) (w : World) : ids_ok w -> ids_ok (rerender old w).
Proof.
  intros Hok. pose proof Hok as (Hp & Ht & Hnd & Hq).
  destruct (rerender_cases old w) as [[_ ->]|[(_ & _ & ->)|(_ & _ & _ & ->)]].
  - exact Hok.
  - apply (ids_ok_keep w); auto. discriminate.
  - unfold ids_ok; simpl. split; [|split; [|split]].
    + intros iv [= <-]. simpl. split; [lia|]. intros Hin.
      apply list_elem_of_fmap in Hin as (t & Heq & Hin).
      rewrite Forall_forall in Ht. specialize (Ht t Hin). lia.
    + eapply Forall_impl; [exact Ht|]. simpl. intros; lia.
    + exact Hnd.
    + eapply Forall_impl; [exact Hq|]. simpl. intros; lia.
Qed.

Lemma ids_ok_step (w : World) (e : Event) : ids_ok w -> ids_ok (step w e).
Proof. intros H. apply ids_ok_rerender, ids_ok_handle, H. Qed.

Lemma deps_unchanged (old new : Store) :
  deps_changed old new = false -> view old = view new /\ runId old = runId new.
Proof.
  unfold deps_changed. intros H. apply negb_false_iff, andb_prop in H as [Hv Hr].
  split; [apply bool_decide_eq_true in Hv; exact Hv | apply String.eqb_eq; exact Hr].
Qed.

(** The requests in flight after a handler ran, judged against the world
    before it. *)
Lemma polls_of_handle (e : Event) (w : World) :
  timers_ok w -> polls_ok w ->
  Forall (fun p =>
    poll_runId p <> "" /\
    (forall iv, poller w = Some iv -> poll_interval p = iv_id iv ->
                poll_runId p = runId (store w))) (polls (handle e w)).
Proof.
  intros (Hp & Hh & _) Hok. unfold polls_ok in Hok.
  destruct e; simpl; try exact Hok.
  - destruct (starts w !! k); [|exact Hok].
    unfold handleSubmit_resume, handleSubmit_catch.
    destruct r as [|[[rid|]]]; simpl; try exact Hok.
    destruct (Js.truthy_string rid); exact Hok.
  - unfold poll_begin. destruct (poller w) as [iv|] eqn:Hiv; [|exact Hok].
    simpl. apply Forall_app. split; [exact Hok|].
    constructor; [|constructor]. simpl.
    destruct (Hp iv eq_refl) as (_ & Hrid & Hv). split.
    + rewrite Hrid. apply truthy_string_spec, Hh, Hv.
    + intros _ _ _. exact Hrid.
  - destruct (polls w !! k) as [p|]; [|exact Hok].
    assert (Hdel := Forall_delete _ _ k Hok).
    unfold poll_resume, poll_fail. destruct r as [|d]; [exact Hdel|].
    destruct (Js.test _ _); [exact Hdel|]. cbv zeta.
    destruct (is_terminal_status _); exact Hdel.
  - destruct (timeouts w !! k); exact Hok.
Qed.

Lemma polls_ok_step (w : World) (e : Event) :
  timers_ok w -> ids_ok w -> polls_ok w -> polls_ok (step w e).
Proof.
  intros Ht Hi Hq.
  pose proof (polls_of_handle e w Ht Hq) as Hold.
  pose proof (ids_ok_handle e w Hi) as (_ & _ & _ & Hlt).
  unfold polls_ok, step.
  destruct (rerender_cases (store w) (handle e w))
    as [[Hd ->]|[(_ & _ & ->)|(_ & _ & _ & ->)]]; simpl.
  - apply deps_unchanged in Hd as [_ Hr].
    eapply Forall_impl; [exact Hold|]. simpl. intros p [Hne Hsame]. split; [exact Hne|].
    intros iv Hiv Hid. rewrite <- Hr. apply (Hsame iv); [|exact Hid].
    apply (handle_poller e w iv Hiv).
  - eapply Forall_impl; [exact Hold|]. simpl. intros p [Hne _]. split; [exact Hne|].
    discriminate.
  - rewrite Forall_forall in Hlt, Hold. apply Forall_forall. intros p Hin.
    split; [apply (Hold p Hin)|].
    intros iv [= <-]. simpl. intros Hid. specialize (Hlt p Hin). lia.
Qed.

(** The four invariants hold in every reachable world. *)
Lemma reachable_invariants (w : World) :
  reachable w -> timers_ok w /\ ids_ok w /\ polls_ok w /\ handle_ok w /\ submission_ok w.
Proof.
  induction 1 as [|w e Hw (Ht & Hi & Hq & Hh & Hs) Hen].
  - split; [apply timers_ok_initial|]. split; [|split; [|split]].
    + unfold ids_ok; simpl. split; [discriminate|].
      split; [constructor|]. split; constructor.
    + constructor.
    + split; [reflexivity | discriminate].
    + left. split; reflexivity.
  - split; [apply timers_ok_step, Ht|]. split; [apply ids_ok_step, Hi|].
    split; [apply polls_ok_step; assumption|].
    split; [apply handle_ok_step, Hh | apply submission_ok_step; assumption].
Qed.

Lemma settling_ok_handle (e : Event) (w : World) :
  view (store (handle e w)) = view (store w) ->
  settling_ok w -> settling_ok (handle e w).
Proof.
  intros Hv Hok. unfold settling_ok in *.
  destruct e; simpl in *; try exact Hok.
  - destruct (starts w !! k); [|exact Hok].
    unfold handleSubmit_resume, handleSubmit_catch in *.
    destruct r as [|[[rid|]]]; simpl in *; try exact Hok.
    destruct (Js.truthy_string rid); simpl in *; [|exact Hok].
    intros _. apply Hok. congruence.
  - unfold poll_begin. destruct (poller w) eqn:Hp; simpl; rewrite ?Hp; [congruence | auto].
  - destruct (polls w !! k) as [p|]; [|exact Hok].
    unfold poll_resume, poll_fail in *. destruct r as [|d]; simpl in *.
    + congruence.
    + destruct (Js.test _ _); simpl in *; [congruence|].
      destruct (is_terminal_status _); simpl in *.
      * intros _ _ Hnil. apply app_eq_nil in Hnil as [_ Hnil]. discriminate.
      * exact Hok.
  - destruct (timeouts w !! k) as [t|]; [|exact Hok]. simpl in *. congruence.
  - intros Hhud. congruence.
Qed.

Lemma settling_ok_step (w : World) (e : Event) :
  handle_ok w -> settling_ok w -> settling_ok (step w e).
Proof.
  intros Hh Hok.
  pose proof (handle_ok_step w e Hh) as [_ Hhud]. revert Hhud.
  unfold settling_ok, step.
  destruct (rerender_cases (store w) (handle e w))
    as [[Hd ->]|[(_ & Hno & ->)|(_ & _ & _ & ->)]]; simpl; intros Hhud.
  - apply deps_unchanged in Hd as [Hv _].
    apply settling_ok_handle; [symmetry; exact Hv | exact Hok].
  - intros Hv _. destruct Hno as [Hno|Hno]; [contradiction|].
    destruct (Hhud Hv Hno).
  - intros _ Hp. discriminate.
Qed.

Lemma reachable_settling_ok (w : World) : reachable w -> settling_ok w.
Proof.
  induction 1 as [|w e Hw IH Hen].
  - intros Hv. discriminate.
  - apply settling_ok_step; [|exact IH].
    apply (reachable_invariants w Hw).
Qed.


(** ** The controller in every reachable world *)

(** X1: in every reachable world an interval is live only while the hud
    view is shown: in the input and result views none exists and no tick can
    fire; and every pending timeout was set with a delay of 1000 ms. *)
Theorem X1_interval_only_in_hud (w : World) :
  reachable w ->
  (view (store w) <> hud -> poller w = None /\ enabled w Tick = false) /\
  Forall (fun t => to_delay t = 1000) (timeouts w).
Proof.
  intros Hr. destruct (reachable_timers_ok w Hr) as (Hp & _ & Ht).
  split; [|exact Ht]. intros Hv.
  assert (Hnone : poller w = None).
  { destruct (poller w) as [iv|] eqn:Hiv; auto.
    destruct (Hp iv eq_refl) as (_ & _ & Hhud). contradiction. }
  split; [exact Hnone|]. simpl. rewrite Hnone. apply bool_decide_eq_false.
  intros [x Hx]. discriminate.
Qed.

(** X2: in every reachable world at most one start request is awaited, one
    is awaited exactly while [loading] is on, and it was sent with a
    non-empty instance id. *)
Theorem X2_one_start_request (w : World) :
  reachable w ->
  (List.length (starts w) <= 1)%nat /\
  (loading (store w) = true <-> starts w <> []) /\
  Forall (fun c => req_instance_id c <> "") (starts w).
Proof.
  intros Hr. destruct (reachable_invariants w Hr) as (_ & _ & _ & _ & Hs).
  destruct Hs as [[Hl Hs]|[Hl (c & Hs & Hc)]]; rewrite Hl, Hs; simpl.
  - split; [lia|]. split; [split; [discriminate | congruence] | constructor].
  - split; [lia|]. split; [split; [discriminate | reflexivity]|].
    constructor; [exact Hc | constructor].
Qed.

(** X3: in every reachable world the stored run id is empty while the input
    form is shown and non-empty while the hud is shown; the status bar shows
    a run label in the hud view and none in the input view. *)
Theorem X3_run_id_follows_view (w : World) :
  reachable w ->
  (view (store w) = input ->
   runId (store w) = "" /\ RunLabel.render (runId (store w)) = None) /\
  (view (store w) = hud ->
   runId (store w) <> "" /\ is_Some (RunLabel.render (runId (store w)))).
Proof.
  intros Hr. destruct (reachable_invariants w Hr) as (_ & _ & _ & [Hin Hhud] & _).
  split; intros Hv.
  - rewrite (Hin Hv). split; reflexivity.
  - split; [exact (Hhud Hv)|]. unfold RunLabel.render.
    rewrite (proj2 (truthy_string_spec _) (Hhud Hv)). eauto.
Qed.

(** X5: in every reachable world every status request in flight was issued
    for a non-empty run id, and a request issued by the live interval is a
    request for the stored run id. *)
Theorem X5_live_requests_are_for_the_stored_run (w : World) (p : Poll) :
  reachable w ->
  p ∈ polls w ->
  poll_runId p <> "" /\
  (forall iv, poller w = Some iv -> poll_interval p = iv_id iv ->
              poll_runId p = runId (store w)).
Proof.
  intros Hr Hin. destruct (reachable_invariants w Hr) as (_ & _ & Hq & _).
  unfold polls_ok in Hq. rewrite Forall_forall in Hq. exact (Hq p Hin).
Qed.

(** ** Single transitions *)

(** X6: an event changes the view only in four ways: a start response with
    a truthy run id opens the hud; a failing status response or a fired
    timeout opens the result view; reset opens the input view.  Typing,
    submitting, ticks and applied observations never change it. *)
Theorem X6_view_transitions (w : World) (e : Event) :
  view (store (step w e)) <> view (store w) ->
  match e with
  | StartSettles k (Body data) =>
      is_Some (starts w !! k) /\ Js.test Js.truthy_string (r_run_id data) = true /\
      view (store (step w e)) = hud
  | PollSettles k r =>
      is_Some (polls w !! k) /\ poll_fails r = true /\ view (store (step w e)) = result
  | TimeoutFires k =>
      is_Some (timeouts w !! k) /\ view (store (step w e)) = result
  | Reset => view (store (step w e)) = input
  | _ => False
  end.
Proof.
  unfold step. rewrite rerender_store. destruct e; simpl; intros H.
  - contradiction.
  - contradiction.
  - contradiction.
  - destruct (starts w !! k) as [c|]; [|contradiction].
    unfold handleSubmit_resume, handleSubmit_catch in *.
    destruct r as [|[[rid|]]]; simpl in *; try contradiction.
    destruct (Js.truthy_string rid); simpl in *; [eauto | contradiction].
  - unfold poll_begin in H. destruct (poller w); contradiction.
  - destruct (polls w !! k) as [p|]; [|contradiction].
    unfold poll_resume, poll_fail in *. destruct r as [|d]; simpl in *; [eauto|].
    destruct (Js.test _ _); simpl in *; [eauto|].
    destruct (is_terminal_status _); contradiction.
  - destruct (timeouts w !! k) as [t|]; [eauto | contradiction].
  - reflexivity.
Qed.

(** X7: the form can be submitted exactly in phase Idle with a non-empty
    instance id; submitting enters Submitting at once, empties the logs,
    sets step 0 and status "pending", and issues one start request with the
    instance id and context of the form; nothing is polled yet. *)
Theorem X7_submit_enters_submitting (w : World) :
  (enabled w Submit = true <-> phase w = Idle /\ instanceId (store w) <> "") /\
  (enabled w Submit = true ->
   let w' := step w Submit in
   phase w' = Submitting /\
   store w' = setStatus "pending" (setCurrentStep 0 (setLogs [] (setLoading true (store w)))) /\
   starts w' = starts w ++ [{| req_instance_id := instanceId (store w);
                               req_problem_statement := context (store w) |}] /\
   poller w' = poller w /\ polls w' = polls w /\ timeouts w' = timeouts w).
Proof.
  assert (Hen : enabled w Submit = true <-> phase w = Idle /\ instanceId (store w) <> "").
  { simpl. unfold phase. rewrite <- truthy_string_spec.
    destruct (view (store w)), (loading (store w)),
      (Js.truthy_string (instanceId (store w))), (poller w); simpl;
      split; try discriminate; try (intros [? ?]; discriminate); auto. }
  split; [exact Hen|]. intros H w'. apply Hen in H as [Hph _].
  assert (Hv : view (store w) = input).
  { unfold phase in Hph. destruct (view (store w)); auto;
      [destruct (poller w)|]; discriminate. }
  assert (E : w' = handleSubmit_begin w).
  { subst w'. unfold step. simpl. apply rerender_same; reflexivity. }
  rewrite E. unfold phase; simpl. rewrite Hv. auto 10.
Qed.

(** A start response with a non-empty run id, received on the input view. *)
Lemma step_start_success (w : World) (k : nat) (c : StartCall) (rid : string) :
  view (store w) = input ->
  starts w !! k = Some c ->
  rid <> "" ->
  step w (StartSettles k (Body {| r_run_id := Some rid |})) =
    {| store := setLoading false (setView hud (setStatus "processing" (setRunId rid (store w))));
       poller := Some {| iv_id := next_timer w; iv_period := poll_period; iv_runId := rid |};
       timeouts := timeouts w; next_timer := S (next_timer w);
       polls := polls w; starts := delete k (starts w) |}.
Proof.
  intros Hv Hk Hrid. unfold step, handle. rewrite Hk. unfold handleSubmit_resume.
  cbn [r_run_id]. rewrite (proj2 (truthy_string_spec rid) Hrid).
  destruct (rerender_cases (store w)
              (with_store (fun s => setLoading false (setView hud (setStatus "processing" (setRunId rid s))))
                 (with_starts (delete k (starts w)) w)))
    as [[Hd _]|[(_ & Hno & _)|(_ & _ & _ & ->)]].
  - apply deps_unchanged in Hd as [Hd _]. simpl in Hd. congruence.
  - simpl in Hno. destruct Hno as [Hno|Hno]; congruence.
  - reflexivity.
Qed.


(** X9: the two immediate-failure branches of the poll callback look at
    neither the view nor the run id: in any world that satisfies the timer
    invariant, a status request that rejects or answers with a truthy
    [error] brings up the result view with status "failed" (phase
    Terminal(Failed)), also from the input form after a reset; no interval
    is left and every other state cell keeps its value. *)
Theorem X9_poll_failure_forces_result
    (w : World) (k : nat) (p : Poll) (r : Settled StatusPayload) :
  timers_ok w ->
  polls w !! k = Some p ->
  poll_fails r = true ->
  let w' := step w (PollSettles k r) in
  phase w' = Terminal Failed /\
  store w' = setView result (setStatus "failed" (store w)) /\
  poller w' = None /\
  polls w' = delete k (polls w) /\ timeouts w' = timeouts w.
Proof.
  intros (Hp & _ & _) Hk Hf w'.
  assert (E : handle (PollSettles k r) w =
              poll_fail (poll_interval p) (with_polls (delete k (polls w)) w)).
  { simpl. rewrite Hk. destruct r as [|d]; simpl in *; [reflexivity|].
    rewrite Hf. reflexivity. }
  subst w'. unfold step. rewrite E.
  destruct (rerender_cases (store w)
              (poll_fail (poll_interval p) (with_polls (delete k (polls w)) w)))
    as [[Hd ->]|[(_ & _ & ->)|(_ & Hhud & _)]].
  - apply deps_unchanged in Hd as [Hv _]. simpl in Hv.
    assert (Hnone : poller w = None).
    { destruct (poller w) as [iv|] eqn:Hiv; auto.
      destruct (Hp iv eq_refl) as (_ & _ & Hhud). congruence. }
    unfold phase, poll_fail, clearInterval; simpl. rewrite Hnone. auto.
  - unfold phase; simpl. auto.
  - simpl in Hhud. discriminate.
Qed.

(** X10: the result view does not freeze the outcome: a status response
    without [error] that arrives while the result view is shown is applied,
    so that the view then reports Resolved exactly when that response's
    status is "completed" and shows that response's patch. *)
Theorem X10_result_view_follows_late_response
    (w : World) (k : nat) (p : Poll) (d : StatusPayload) :
  view (store w) = result ->
  polls w !! k = Some p ->
  Js.test Js.truthy_string (p_error d) = false ->
  let w' := step w (PollSettles k (Body d)) in
  phase w' = Terminal (if isSuccess (p_status d) then Resolved else Failed) /\
  exposed_artifact w' = (if isSuccess (p_status d) then shown_patch d else None).
Proof.
  intros Hv Hk He w'.
  assert (Hs : store w' = apply_observation d (store w))
    by (apply (store_after_observation w k p d Hk He)).
  unfold phase, exposed_artifact. rewrite Hs. simpl. rewrite Hv.
  split; [reflexivity|].
  unfold Results.patch_panel, shown_patch; simpl.
  destruct (isSuccess (p_status d)); simpl; auto.
  unfold Js.or_else. destruct (p_patch d) as [pt|]; simpl; auto.
  destruct (Js.truthy_string pt) eqn:Hpt; simpl; rewrite ?Hpt; auto.
Qed.

(** X11: a run launched after a reset starts from the same store as the
    first run of the session: whatever the store held, after reset, typing
    the instance id, submitting and a start response with a run id, the
    store equals the one the same steps produce on the initial world, and
    the controller is Active. *)
Theorem X11_launch_after_reset_starts_clean (w : World) (inst rid : string) :
  loading (store w) = false ->
  starts w = [] ->
  inst <> "" -> rid <> "" ->
  feasible (step w Reset) (Scenario.launch inst rid) = true /\
  store (run (step w Reset) (Scenario.launch inst rid)) =
    store (run initial_world (Scenario.launch inst rid)) /\
  phase (run (step w Reset) (Scenario.launch inst rid)) = Active.
Proof.
  intros Hl Hs Hinst Hrid.
  set (w0 := step w Reset).
  assert (Hst0 : store w0 = initial_store).
  { subst w0. unfold step. rewrite rerender_store.
    destruct w as [s ? ? ? ? ?]; destruct s; simpl in *. subst. reflexivity. }
  assert (Hs0 : starts w0 = []).
  { subst w0. unfold step. rewrite rerender_starts. exact Hs. }
  set (w1 := step w0 (Type_instanceId inst)).
  assert (Hst1 : store w1 = setInstanceId inst initial_store).
  { subst w1. unfold step. rewrite rerender_store. simpl. rewrite Hst0. reflexivity. }
  assert (Hs1 : starts w1 = []).
  { subst w1. unfold step. rewrite rerender_starts. exact Hs0. }
  set (w2 := step w1 Submit).
  assert (Hst2 : store w2 =
            setStatus "pending" (setCurrentStep 0 (setLogs [] (setLoading true
              (setInstanceId inst initial_store))))).
  { subst w2. unfold step. rewrite rerender_store. simpl. rewrite Hst1. reflexivity. }
  assert (Hs2 : starts w2 = [{| req_instance_id := inst; req_problem_statement := "" |}]).
  { subst w2. unfold step. rewrite rerender_starts. simpl. rewrite Hs1, Hst1. reflexivity. }
  assert (Hv2 : view (store w2) = input) by (rewrite Hst2; reflexivity).
  assert (Hk2 : starts w2 !! 0%nat =
                Some {| req_instance_id := inst; req_problem_statement := "" |})
    by (rewrite Hs2; reflexivity).
  pose proof (step_start_success w2 0 _ rid Hv2 Hk2 Hrid) as E3.
  pose proof (step_start_success (run initial_world [Type_instanceId inst; Submit]) 0
                {| req_instance_id := inst; req_problem_statement := "" |} rid
                eq_refl eq_refl Hrid) as E3'.
  change (run w0 (Scenario.launch inst rid))
    with (step w2 (StartSettles 0 (Body {| r_run_id := Some rid |}))).
  change (run initial_world (Scenario.launch inst rid))
    with (step (run initial_world [Type_instanceId inst; Submit])
               (StartSettles 0 (Body {| r_run_id := Some rid |}))).
  rewrite E3, E3'. split; [|split].
  - unfold Scenario.launch, feasible.
    fold w1. fold w2.
    cbn [enabled]. rewrite Hst0, Hst1, Hs2. simpl.
    rewrite (proj2 (truthy_string_spec inst) Hinst). reflexivity.
  - simpl. rewrite Hst2. reflexivity.
  - unfold phase; simpl. reflexivity.
Qed.

(** X16: Settling always ends.  In every reachable world in which the hud
    is shown and the interval has been cleared, a timeout is pending; it was
    set with 1000 ms, and when it fires the result view comes up, with the
    outcome read from the stored status. *)
Theorem X16_settling_has_a_pending_timeout (w : World) :
  reachable w ->
  phase w = Settling ->
  exists t, timeouts w !! 0%nat = Some t /\ to_delay t = 1000 /\
            enabled w (TimeoutFires 0) = true /\
            phase (step w (TimeoutFires 0)) =
              Terminal (if isSuccess (status (store w)) then Resolved else Failed).
Proof.
  intros Hr Hph.
  assert (Hv : view (store w) = hud /\ poller w = None).
  { unfold phase in Hph. destruct (view (store w)); [destruct (loading _)| |];
      try discriminate. destruct (poller w); [discriminate | auto]. }
  destruct Hv as [Hv Hp].
  pose proof (reachable_settling_ok w Hr Hv Hp) as Hne.
  destruct (reachable_timers_ok w Hr) as (_ & _ & Hdel).
  destruct (timeouts w) as [|t ts] eqn:Hts; [contradiction|].
  exists t. split; [reflexivity|].
  split; [inversion Hdel; assumption|].
  split; [simpl; rewrite Hts; reflexivity|].
  rewrite (step_timeout w 0 t); [|rewrite Hts; reflexivity | exact Hv].
  reflexivity.
Qed.

(** ** The pipeline rows *)

Lemma render_row_succ (cs : Z) (i : nat) (st : Sidebar.Step) :
  Sidebar.render_row cs (S i) st = Sidebar.render_row (cs - 1) i st.
Proof.
  unfold Sidebar.render_row.
  replace (Z.of_nat (S i) =? cs) with (Z.of_nat i =? cs - 1)
    by (destruct (Z.eqb_spec (Z.of_nat i) (cs - 1)), (Z.eqb_spec (Z.of_nat (S i)) cs); lia).
  replace (Z.of_nat (S i) <? cs) with (Z.of_nat i <? cs - 1)
    by (destruct (Z.ltb_spec (Z.of_nat i) (cs - 1)), (Z.ltb_spec (Z.of_nat (S i)) cs); lia).
  reflexivity.
Qed.

Lemma render_cons (st : Sidebar.Step) (l : list Sidebar.Step) (cs : Z) :
  Sidebar.render (st :: l) cs = Sidebar.render_row cs 0 st :: Sidebar.render l (cs - 1).
Proof.
  unfold Sidebar.render. simpl. f_equal. apply imap_ext.
  intros i x _. apply render_row_succ.
Qed.

Lemma head_row_icon (cs : Z) (st : Sidebar.Step) :
  Sidebar.row_icon (Sidebar.render_row cs 0 st) =
  if 0 <? cs then Sidebar.CheckCircle2
  else if 0 =? cs then Sidebar.Loader2 else Sidebar.step_icon st.
Proof. reflexivity. Qed.

Lemma head_row_class (cs : Z) (st : Sidebar.Step) :
  Sidebar.row_class (Sidebar.render_row cs 0 st) =
  if 0 =? cs then Sidebar.active_class
  else if 0 <? cs then Sidebar.done_class else "".
Proof. reflexivity. Qed.

(** X12: the pipeline shows a prefix of check marks, then at most one
    spinner, then the steps' own icons: with [n] steps and step index [cs],
    the first min(n, cs) rows are done (none for a negative index), the row
    at index [cs] spins if there is one, and the others are pending; the
    container classes follow the same split, so the two conditional chains
    of the component, which test [isActive] and [isDone] in opposite order,
    never disagree. *)
Theorem X12_pipeline_is_done_prefix_then_spinner (steps : list Sidebar.Step) (cs : Z) :
  let n := List.length steps in
  let d := Nat.min n (Z.to_nat cs) in
  let a := if (0 <=? cs) && (cs <? Z.of_nat n) then 1%nat else 0%nat in
  Sidebar.row_icon <$> Sidebar.render steps cs =
    repeat Sidebar.CheckCircle2 d ++ repeat Sidebar.Loader2 a
      ++ (Sidebar.step_icon <$> drop (d + a) steps) /\
  Sidebar.row_class <$> Sidebar.render steps cs =
    repeat Sidebar.done_class d ++ repeat Sidebar.active_class a
      ++ repeat "" (n - (d + a))%nat /\
  Sidebar.row_text <$> Sidebar.render steps cs = Sidebar.step_label <$> steps.
Proof.
  revert cs. induction steps as [|st l IH]; intros cs; cbv zeta.
  - change (Z.of_nat (List.length (@nil Sidebar.Step))) with 0.
    destruct (Z.leb_spec 0 cs), (Z.ltb_spec cs 0); simpl; auto; lia.
  - rewrite render_cons. specialize (IH (cs - 1)). cbv zeta in IH.
    destruct IH as (IHi & IHc & IHt).
    rewrite !fmap_cons, IHi, IHc, IHt. clear IHi IHc IHt.
    rewrite (head_row_icon cs st), (head_row_class cs st).
    cbn [List.length Sidebar.row_text Sidebar.render_row].
    set (m := List.length l).
    destruct (Z.ltb_spec cs 0) as [Hneg|Hnn].
    + (* negative index: nothing done, nothing active *)
      replace (Z.to_nat cs) with 0%nat by lia.
      replace (Z.to_nat (cs - 1)) with 0%nat by lia.
      replace (0 <=? cs) with false by (symmetry; apply Z.leb_gt; lia).
      replace (0 <=? cs - 1) with false by (symmetry; apply Z.leb_gt; lia).
      replace (0 =? cs) with false by (symmetry; apply Z.eqb_neq; lia).
      replace (0 <? cs) with false by (symmetry; apply Z.ltb_ge; lia).
      rewrite !Nat.min_0_r. simpl. rewrite Nat.sub_0_r. auto.
    + destruct (Z.eqb_spec cs 0) as [->|Hpos].
      * (* index 0: the head spins *)
        change (Z.to_nat 0) with 0%nat. change (Z.to_nat (0 - 1)) with 0%nat.
        rewrite !Nat.min_0_r.
        replace (0 <? Z.of_nat (S m)) with true by (symmetry; apply Z.ltb_lt; lia).
        simpl. rewrite Nat.sub_0_r. auto.
      * (* positive index: the head is done *)
        assert (Hto : Z.to_nat cs = S (Z.to_nat (cs - 1))) by lia.
        rewrite Hto. cbn [Nat.min].
        replace (0 <=? cs) with true by (symmetry; apply Z.leb_le; lia).
        replace (0 <=? cs - 1) with true by (symmetry; apply Z.leb_le; lia).
        replace (cs <? Z.of_nat (S m)) with (cs - 1 <? Z.of_nat m)
          by (destruct (Z.ltb_spec (cs - 1) (Z.of_nat m)),
                       (Z.ltb_spec cs (Z.of_nat (S m))); lia).
        replace (0 =? cs) with false by (symmetry; apply Z.eqb_neq; lia).
        replace (0 <? cs) with true by (symmetry; apply Z.ltb_lt; lia).
        generalize (Nat.min m (Z.to_nat (cs - 1))). intros d.
        generalize (if true && (cs - 1 <? Z.of_nat m) then 1%nat else 0%nat). intros a.
        simpl. auto.
Qed.

(** ** The header of the patch panel *)

Lemma split_lines_nonempty (s : string) : PatchPanel.split_lines s <> [].
Proof.
  destruct s as [|c s]; simpl; [discriminate|].
  destruct (Ascii.eqb c PatchPanel.newline); [discriminate|].
  destruct (PatchPanel.split_lines s); discriminate.
Qed.

Lemma split_lines_length (s : string) :
  List.length (PatchPanel.split_lines s) = S (PatchPanel.newlines s).
Proof.
  induction s as [|c s IH]; simpl; auto.
  destruct (Ascii.eqb c PatchPanel.newline); simpl; [congruence|].
  destruct (PatchPanel.split_lines s) eqn:E; simpl in *; congruence.
Qed.

Lemma join_lines_cons (x l : string) (ls : list string) :
  PatchPanel.join_lines (x :: l :: ls) =
  x +:+ String PatchPanel.newline (PatchPanel.join_lines (l :: ls)).
Proof. reflexivity. Qed.

Lemma join_split_lines (s : string) :
  PatchPanel.join_lines (PatchPanel.split_lines s) = s.
Proof.
  induction s as [|c s IH]; [reflexivity|].
  pose proof (split_lines_nonempty s) as Hne.
  cbn [PatchPanel.split_lines].
  destruct (PatchPanel.split_lines s) as [|l ls]; [contradiction|].
  destruct (Ascii.eqb_spec c PatchPanel.newline) as [->|Hc].
  - rewrite join_lines_cons, IH. reflexivity.
  - destruct ls as [|l' ls].
    + simpl in *. congruence.
    + rewrite join_lines_cons. rewrite join_lines_cons in IH.
      rewrite <- IH. reflexivity.
Qed.

Lemma split_lines_no_newline (s : string) :
  Forall (fun l => PatchPanel.newlines l = 0%nat) (PatchPanel.split_lines s).
Proof.
  induction s as [|c s IH]; simpl.
  - constructor; [reflexivity | constructor].
  - destruct (Ascii.eqb c PatchPanel.newline) eqn:Hc.
    + constructor; [reflexivity | exact IH].
    + destruct (PatchPanel.split_lines s) as [|l ls].
      * constructor; [simpl; rewrite Hc; reflexivity | constructor].
      * inversion IH; subst. constructor; [simpl; rewrite Hc; simpl; assumption | assumption].
Qed.

(** X13: the patch panel's header is rendered exactly for a completed run
    with a non-empty patch, and the line count it shows is one more than the
    number of newline characters of the patch (so a patch that ends in a
    newline counts a final empty line); the lines it counts contain no
    newline and joined by newlines give back the patch. *)
Theorem X13_line_count_is_newlines_plus_one (st pt : string) :
  (forall n, PatchPanel.line_count st pt = Some n <->
             st = "completed" /\ pt <> "" /\ n = S (PatchPanel.newlines pt)) /\
  PatchPanel.join_lines (PatchPanel.split_lines pt) = pt /\
  Forall (fun l => PatchPanel.newlines l = 0%nat) (PatchPanel.split_lines pt).
Proof.
  split; [|split; [apply join_split_lines | apply split_lines_no_newline]].
  intros n. unfold PatchPanel.line_count.
  rewrite <- isSuccess_spec, <- truthy_string_spec, split_lines_length.
  destruct (isSuccess st), (Js.truthy_string pt); simpl; split.
  all: try (intros [= <-]; auto); try (intros (? & ? & ?); congruence).
Qed.

(** ** Log colours *)

Lemma prefix_spec (sub s : string) :
  String.prefix sub s = true <-> exists after, s = sub +:+ after.
Proof.
  revert s. induction sub as [|c sub IH]; intros s.
  - split; [intros _; exists s; reflexivity | intros _; destruct s; reflexivity].
  - destruct s as [|c' s]; simpl.
    + split; [discriminate | intros [after H]; simpl in H; discriminate].
    + destruct (Ascii.ascii_dec c c') as [<-|Hne].
      * rewrite IH. split; intros [after H]; exists after; simpl in *; [rewrite H; reflexivity | injection H; auto].
      * split; [discriminate | intros [after H]; simpl in H; injection H; intros; subst; contradiction].
Qed.

Lemma includes_nil (sub : string) :
  Terminal.includes sub "" = String.prefix sub "" || false.
Proof. reflexivity. Qed.

Lemma includes_cons (sub : string) (c : Ascii.ascii) (s : string) :
  Terminal.includes sub (String c s) =
  String.prefix sub (String c s) || Terminal.includes sub s.
Proof. reflexivity. Qed.

Lemma includes_spec (sub s : string) :
  Terminal.includes sub s = true <-> Terminal.occurs sub s.
Proof.
  unfold Terminal.occurs. split.
  - induction s as [|c s IH].
    + rewrite includes_nil, orb_true_iff, prefix_spec.
      intros [[after H]|H]; [|discriminate]. exists "", after. exact H.
    + rewrite includes_cons, orb_true_iff, prefix_spec.
      intros [[after H]|H].
      * exists "", after. exact H.
      * destruct (IH H) as (before & after & ->).
        exists (String c before), after. reflexivity.
  - intros (before & after & ->). induction before as [|c before IH].
    + change ("" +:+ sub +:+ after) with (sub +:+ after).
      destruct (sub +:+ after) as [|c s] eqn:E.
      * rewrite includes_nil, orb_true_iff. left. apply prefix_spec.
        exists after. symmetry. exact E.
      * rewrite includes_cons, orb_true_iff. left. apply prefix_spec.
        exists after. symmetry. exact E.
    + change (String c before +:+ sub +:+ after)
        with (String c (before +:+ sub +:+ after)).
      rewrite includes_cons, orb_true_iff. right. exact IH.
Qed.

(** X14: the colour of a log line is decided by the first marker found, in
    the order check mark, "[ERROR]", "[FIX]": a line in which the check mark
    occurs anywhere is green even if "[ERROR]" occurs too, a line is red
    exactly when "[ERROR]" occurs and the check mark does not, amber exactly
    when only "[FIX]" of the three occurs, and grey exactly when none does. *)
Theorem X14_log_colour_by_first_marker (log : string) :
  (Terminal.getLogColor log = "text-emerald-400" <->
     Terminal.occurs Terminal.check_mark log) /\
  (Terminal.getLogColor log = "text-rose-400" <->
     ~ Terminal.occurs Terminal.check_mark log /\ Terminal.occurs "[ERROR]" log) /\
  (Terminal.getLogColor log = "text-amber-400" <->
     ~ Terminal.occurs Terminal.check_mark log /\ ~ Terminal.occurs "[ERROR]" log /\
     Terminal.occurs "[FIX]" log) /\
  (Terminal.getLogColor log = "text-zinc-400" <->
     ~ Terminal.occurs Terminal.check_mark log /\ ~ Terminal.occurs "[ERROR]" log /\
     ~ Terminal.occurs "[FIX]" log).
Proof.
  unfold Terminal.getLogColor. rewrite <- !includes_spec.
  destruct (Terminal.includes Terminal.check_mark log),
           (Terminal.includes "[ERROR]" log),
           (Terminal.includes "[FIX]" log).
  all: repeat match goal with |- _ /\ _ => split | |- _ <-> _ => split end.
  all: try discriminate; try reflexivity; try tauto.
  all: try (intros _; repeat split; discriminate).
  all: try (intros H; decompose [and] H; congruence).
Qed.

(** ** The run label *)

Lemma substring_prefix (n : nat) (s : string) :
  exists rest, s = String.substring 0 n s +:+ rest /\
               String.length (String.substring 0 n s) = Nat.min n (String.length s).
Proof.
  revert s. induction n as [|n IH]; intros s.
  - exists s. destruct s; simpl; auto.
  - destruct s as [|c s]; simpl.
    + exists "". auto.
    + destruct (IH s) as (rest & Heq & Hlen). exists rest.
      split.
      * change (String c s = String c (String.substring 0 n s +:+ rest)).
        f_equal. exact Heq.
      * change (S (String.length (String.substring 0 n s)) = S (Nat.min n (String.length s))).
        f_equal. exact Hlen.
Qed.

Lemma length_append (s t : string) :
  String.length (s +:+ t) = (String.length s + String.length t)%nat.
Proof.
  induction s as [|c s IH]; [reflexivity|].
  change (S (String.length (s +:+ t)) = S (String.length s + String.length t)).
  rewrite IH. reflexivity.
Qed.

Lemma append_empty_r (s : string) : s +:+ "" = s.
Proof.
  induction s as [|c s IH]; [reflexivity|].
  change (String c (s +:+ "") = String c s). rewrite IH. reflexivity.
Qed.

(** X15: for a run id of ASCII characters, the status bar shows no run
    label when the id is empty and otherwise "Run: " followed by the first
    eight characters of the id (the whole id when it has at most eight). *)
Theorem X15_run_label_is_eight_char_prefix (rid : string) :
  RunLabel.ascii_only rid ->
  (rid = "" -> RunLabel.render rid = None) /\
  (rid <> "" ->
   exists shown rest,
     RunLabel.render rid = Some ("Run: " +:+ shown) /\
     rid = shown +:+ rest /\
     String.length shown = Nat.min 8 (String.length rid) /\
     ((String.length rid <= 8)%nat -> shown = rid)).
Proof.
  intros _. split.
  - intros ->. reflexivity.
  - intros Hne. unfold RunLabel.render.
    rewrite (proj2 (truthy_string_spec rid) Hne).
    destruct (substring_prefix 8 rid) as (rest & Heq & Hlen).
    exists (String.substring 0 8 rid), rest. split; [reflexivity|].
    split; [exact Heq|]. split; [exact Hlen|].
    intros Hle. assert (Hr : String.length rest = 0%nat).
    { apply (f_equal String.length) in Heq.
      rewrite length_append in Heq. lia. }
    destruct rest; [|discriminate].
    rewrite append_empty_r in Heq. symmetry. exact Heq.
Qed.

(** ** Instances of the further theorems *)

Lemma reachable_polling : reachable Scenario.polling.
Proof. apply feasible_reachable; [constructor | reflexivity]. Defined.

Lemma reachable_before_reset : reachable Scenario.before_reset.
Proof. apply feasible_reachable; [constructor | reflexivity]. Defined.

Lemma reachable_second_run : reachable Scenario.second_run.
Proof.
  apply feasible_reachable; [|reflexivity].
  apply feasible_reachable; [constructor | reflexivity].
Defined.

(** X1 at the result view of a failed run. *)
Lemma X1_witness :
  reachable Scenario.before_reset /\
  view (store Scenario.before_reset) <> hud /\
  poller Scenario.before_reset = None /\
  enabled Scenario.before_reset Tick = false.
Proof.
  assert (Hv : view (store Scenario.before_reset) <> hud) by (vm_compute; discriminate).
  split; [exact reachable_before_reset|]. split; [exact Hv|].
  exact (proj1 (X1_interval_only_in_hud _ reachable_before_reset) Hv).
Defined.

(** X2 while the start request of the sample submission is awaited. *)
Lemma X2_witness :
  reachable Scenario.submitting /\
  (List.length (starts Scenario.submitting) <= 1)%nat /\
  Forall (fun c => req_instance_id c <> "") (starts Scenario.submitting).
Proof.
  assert (H : reachable Scenario.submitting)
    by (apply feasible_reachable; [constructor | reflexivity]).
  destruct (X2_one_start_request _ H) as (Hlen & _ & Hall).
  split; [exact H|]. split; [exact Hlen | exact Hall].
Defined.

(** X3 at the polled sample run. *)
Lemma X3_witness :
  reachable Scenario.polling /\
  view (store Scenario.polling) = hud /\
  runId (store Scenario.polling) <> "" /\
  is_Some (RunLabel.render (runId (store Scenario.polling))).
Proof.
  split; [exact reachable_polling|]. split; [reflexivity|].
  exact (proj2 (X3_run_id_follows_view _ reachable_polling) eq_refl).
Defined.

(** X5 at the second run, where the request in flight is the stale one of
    the first run: it is not a request of the live interval. *)
Lemma X5_witness :
  reachable Scenario.second_run /\
  Cases.stale_poll ∈ polls Scenario.second_run /\
  poll_runId Cases.stale_poll <> "".
Proof.
  assert (Hin : Cases.stale_poll ∈ polls Scenario.second_run)
    by (vm_compute; apply list_elem_of_singleton; reflexivity).
  split; [exact reachable_second_run|]. split; [exact Hin|].
  exact (proj1 (X5_live_requests_are_for_the_stored_run _ _ reachable_second_run Hin)).
Defined.

(** X6 at a rejected status request of the polled run. *)
Lemma X6_witness :
  view (store (step Scenario.polling (PollSettles 0 Rejects))) <> view (store Scenario.polling) /\
  view (store (step Scenario.polling (PollSettles 0 Rejects))) = result.
Proof.
  assert (H : view (store (step Scenario.polling (PollSettles 0 Rejects)))
              <> view (store Scenario.polling)) by (vm_compute; discriminate).
  split; [exact H|].
  exact (proj2 (proj2 (X6_view_transitions Scenario.polling (PollSettles 0 Rejects) H))).
Defined.

(** X7 at the filled-in form of the sample submission. *)
Lemma X7_witness :
  enabled (step initial_world (Type_instanceId "proj__proj-123")) Submit = true /\
  phase (step (step initial_world (Type_instanceId "proj__proj-123")) Submit) = Submitting /\
  enabled initial_world Submit = false.
Proof.
  split; [reflexivity|]. split; [|reflexivity].
  exact (proj1 (proj2 (X7_submit_enters_submitting
                         (step initial_world (Type_instanceId "proj__proj-123"))) eq_refl)).
Defined.


(** X9 on the input form after a reset, when the stale request rejects. *)
Lemma X9_witness :
  timers_ok Scenario.after_reset /\
  phase Scenario.after_reset = Idle /\
  phase (step Scenario.after_reset (PollSettles 0 Rejects)) = Terminal Failed.
Proof.
  assert (H : timers_ok Scenario.after_reset).
  { apply reachable_timers_ok, feasible_reachable; [constructor | reflexivity]. }
  split; [exact H|]. split; [reflexivity|].
  exact (proj1 (X9_poll_failure_forces_result Scenario.after_reset 0 Cases.stale_poll
                  Rejects H eq_refl eq_refl)).
Defined.

(** X10 at the result view of a failed run when the slow request answers
    "completed". *)
Lemma X10_witness :
  phase Scenario.before_reset = Terminal Failed /\
  phase (step Scenario.before_reset (PollSettles 0 (Body Scenario.late))) = Terminal Resolved /\
  exposed_artifact (step Scenario.before_reset (PollSettles 0 (Body Scenario.late))) =
    Some "old patch".
Proof.
  split; [reflexivity|].
  exact (X10_result_view_follows_late_response Scenario.before_reset 0 Cases.stale_poll
           Scenario.late eq_refl eq_refl eq_refl).
Defined.

(** X11 at a reset from the result view of a failed run. *)
Lemma X11_witness :
  loading (store Scenario.before_reset) = false /\
  starts Scenario.before_reset = [] /\
  store (run (step Scenario.before_reset Reset) (Scenario.launch "b" "r2")) =
    store (run initial_world (Scenario.launch "b" "r2")).
Proof.
  assert (Hb : "b" <> "") by discriminate.
  assert (Hr : "r2" <> "") by discriminate.
  split; [reflexivity|]. split; [reflexivity|].
  exact (proj1 (proj2 (X11_launch_after_reset_starts_clean Scenario.before_reset
                         "b" "r2" eq_refl eq_refl Hb Hr))).
Defined.

(** X15 at a run id of sixteen characters. *)
Lemma X15_witness :
  RunLabel.ascii_only Cases.long_run_id /\
  RunLabel.render Cases.long_run_id = Some "Run: 3f2a9c1e".
Proof.
  assert (Ha : RunLabel.ascii_only Cases.long_run_id).
  { unfold RunLabel.ascii_only. vm_compute. repeat (constructor; [lia|]). constructor. }
  assert (Hne : Cases.long_run_id <> "") by discriminate.
  split; [exact Ha|].
  destruct (proj2 (X15_run_label_is_eight_char_prefix Cases.long_run_id Ha) Hne)
    as (shown & rest & Hshown & _).
  reflexivity.
Defined.

(** X16 at the sample run after its completed observation. *)
Lemma X16_witness :
  reachable Cases.settling /\
  phase Cases.settling = Settling /\
  exists t, timeouts Cases.settling !! 0%nat = Some t /\ to_delay t = 1000 /\
            enabled Cases.settling (TimeoutFires 0) = true /\
            phase (step Cases.settling (TimeoutFires 0)) = Terminal Resolved.
Proof.
  assert (H : reachable Cases.settling).
  { apply feasible_reachable; [exact reachable_polling | reflexivity]. }
  split; [exact H|]. split; [reflexivity|].
  exact (X16_settling_has_a_pending_timeout Cases.settling H eq_refl).
Defined.

(** The six steps of the page at step index 2, at 6 and without a step. *)
Example pipeline_at_two :
  Sidebar.row_icon <$> Sidebar.render steps 2 =
  [Sidebar.CheckCircle2; Sidebar.CheckCircle2; Sidebar.Loader2;
   Sidebar.Search; Sidebar.Wrench; Sidebar.TestTube].
Proof. reflexivity. Qed.

Example pipeline_past_the_end :
  Sidebar.row_icon <$> Sidebar.render steps 6 = repeat Sidebar.CheckCircle2 6.
Proof. reflexivity. Qed.

Example patch_of_the_scenario_has_three_lines :
  PatchPanel.line_count "completed"
    ("--- a/x.py" +:+ String PatchPanel.newline ("+++ b/x.py" +:+ String PatchPanel.newline ""))
  = Some 3%nat.
Proof. reflexivity. Qed.

Example error_line_with_check_mark_is_green :
  Terminal.getLogColor ("[ERROR] retry " +:+ Terminal.check_mark) = "text-emerald-400".
Proof. reflexivity. Qed.
